(** * N3 digital-signature subsystem: a shallow embedding

    The development follows two source files of the repository:

    - [lib/db/models/crypto/digitalSignature.js], the [DigitalSignature]
      class (canonicalization, signing, stateless verification, the
      simplified timestamp authority);
    - the Mongoose [Signature] model, with its [verify], [revoke] and
      [verifyTimestamp] methods and its [pre('save')] audit middleware.

    What the JavaScript code takes from its platform (the [Number] type,
    Node's [crypto] and [Buffer] modules, [JSON.parse], Mongoose's
    validation and the persistence layer) is gathered in three
    interfaces, [JSNumber], [Node] and [SignatureModel.Store], so that
    every statement holds for any implementation of them; what a
    statement needs of Node, such as its refusal of a digest name that
    it does not know, is a hypothesis of that statement.
    [JSON.stringify] with its replacer argument, on which
    canonicalization rests, is written out in full after ECMA-262
    (SerializeJSONProperty and its helpers). *)

From Stdlib Require Import String Ascii List Bool Arith ZArith Lia.
From Stdlib Require Import Permutation Sorted DecimalString.
Import ListNotations.
Local Open Scope list_scope.
Local Open Scope string_scope.

Set Implicit Arguments.

(** ** Completions of a JavaScript call

    A call either returns a value or throws an [Error] carrying a
    message. *)

Inductive outcome (A : Type) : Type :=
| Returned (a : A)
| Thrown (message : string).

Arguments Returned {A} a.
Arguments Thrown {A} message.

Definition outcome_bind {A B} (c : outcome A) (k : A -> outcome B) : outcome B :=
  match c with
  | Returned a => k a
  | Thrown m => Thrown m
  end.

(** [try { body } catch (error) { handler(error.message) }] *)
Definition try_catch {A} (body : outcome A) (handler : string -> outcome A) : outcome A :=
  match body with
  | Returned a => Returned a
  | Thrown m => handler m
  end.

Declare Scope outcome_scope.
Delimit Scope outcome_scope with outcome.
Notation "x <- c ;; k" := (outcome_bind c (fun x => k))
  (at level 61, c at next level, right associativity) : outcome_scope.

(** ** JavaScript strings

    A string is a sequence of code units; the model keeps the code units
    below 256, one [ascii] each. *)

Module JSString.

(** [ToString(n)] for an array index. *)
Definition of_index (n : nat) : string :=
  NilEmpty.string_of_uint (Nat.to_uint n).

(** The keys ["0"], ["1"], ..., of an array or string of length [n]. *)
Definition index_keys (n : nat) : list string :=
  map of_index (seq 0 n).

(** The characters of a string, each as a one-character string. *)
Fixpoint chars (s : string) : list string :=
  match s with
  | EmptyString => []
  | String c rest => String c EmptyString :: chars rest
  end.

(** [Array.prototype.sort()] without comparator on an array of strings:
    ascending order of code units. *)
Fixpoint insert_sorted (x : string) (l : list string) : list string :=
  match l with
  | [] => [x]
  | y :: rest => if String.leb x y then x :: l else y :: insert_sorted x rest
  end.

Fixpoint sort (l : list string) : list string :=
  match l with
  | [] => []
  | x :: rest => insert_sorted x (sort rest)
  end.

(** The order [sort] puts keys in. *)
Definition le (a b : string) : Prop := String.leb a b = true.

(** [haystack.replace(needle, empty)] with a string pattern and the
    empty replacement: the first occurrence is removed. *)
Fixpoint drop_prefix (needle s : string) : option string :=
  match needle, s with
  | EmptyString, _ => Some s
  | String a needle', String b s' =>
      if Ascii.eqb a b then drop_prefix needle' s' else None
  | String _ _, EmptyString => None
  end.

Fixpoint remove_first (needle s : string) : string :=
  match drop_prefix needle s with
  | Some rest => rest
  | None =>
      match s with
      | EmptyString => EmptyString
      | String c s' => String c (remove_first needle s')
      end
  end.

(** The code unit 0x22, the double quote. *)
Definition dquote : ascii := ascii_of_nat 34.

Definition hex_digit (n : nat) : ascii :=
  match n with
  | 0 => "0" | 1 => "1" | 2 => "2" | 3 => "3" | 4 => "4" | 5 => "5"
  | 6 => "6" | 7 => "7" | 8 => "8" | 9 => "9" | 10 => "a" | 11 => "b"
  | 12 => "c" | 13 => "d" | 14 => "e" | _ => "f"
  end%char.

(** One code unit of QuoteJSONString (ECMA-262 25.5.2.3). *)
Definition quote_char (c : ascii) : string :=
  let n := nat_of_ascii c in
  if Nat.eqb n 8 then "\b"
  else if Nat.eqb n 9 then "\t"
  else if Nat.eqb n 10 then "\n"
  else if Nat.eqb n 12 then "\f"
  else if Nat.eqb n 13 then "\r"
  else if Nat.eqb n 34 then String "\" (String dquote EmptyString)
  else if Nat.eqb n 92 then "\\"
  else if Nat.ltb n 32 then
    "\u00" ++ String (hex_digit (n / 16)) (String (hex_digit (n mod 16)) EmptyString)
  else String c EmptyString.

Fixpoint quote_body (s : string) : string :=
  match s with
  | EmptyString => EmptyString
  | String c rest => quote_char c ++ quote_body rest
  end.

Definition QuoteJSONString (s : string) : string :=
  String dquote (quote_body s ++ String dquote EmptyString).

End JSString.

(** ** JavaScript values

    [Number] is left to the platform: a type of numbers with
    [Number::toString] and the finiteness test that [JSON.stringify]
    applies. *)

Class JSNumber : Type := {
  number : Type;
  Number_toString : number -> string;
  Number_isFinite : number -> bool
}.

Section Values.
Context {Num : JSNumber}.

(** The values a document is made of.  An object is the list of its own
    enumerable properties in the order [Object.keys] lists them; the
    prototype chain is not modelled. *)
Unset Elimination Schemes.
Inductive json : Type :=
| JUndefined
| JNull
| JBool (b : bool)
| JNum (n : number)
| JStr (s : string)
| JArr (elements : list json)
| JObj (properties : list (string * json)).
Set Elimination Schemes.

(** Induction over a value, with the hypothesis available for every
    array element and every property value. *)
Definition json_ind (P : json -> Prop)
  (f_undefined : P JUndefined) (f_null : P JNull)
  (f_bool : forall b, P (JBool b)) (f_num : forall n, P (JNum n))
  (f_str : forall s, P (JStr s))
  (f_arr : forall elements, Forall P elements -> P (JArr elements))
  (f_obj : forall props,
      Forall (fun kv => P (snd kv)) props -> P (JObj props))
  : forall v, P v :=
  fix F (v : json) : P v :=
    match v with
    | JUndefined => f_undefined
    | JNull => f_null
    | JBool b => f_bool b
    | JNum n => f_num n
    | JStr s => f_str s
    | JArr elements =>
        f_arr elements
          ((fix G (l : list json) : Forall P l :=
              match l with
              | [] => Forall_nil P
              | e :: l' => Forall_cons e (F e) (G l')
              end) elements)
    | JObj props =>
        f_obj props
          ((fix G (l : list (string * json))
              : Forall (fun kv => P (snd kv)) l :=
              match l with
              | [] => Forall_nil _
              | kv :: l' =>
                  @Forall_cons _ (fun kv => P (snd kv)) kv l' (F (snd kv)) (G l')
              end) props)
    end.

Definition properties_t : Type := list (string * json).

(** [holder[P]] on an own-property list. *)
Fixpoint Get (props : properties_t) (P : string) : option json :=
  match props with
  | [] => None
  | (k, v) :: rest => if String.eqb k P then Some v else Get rest P
  end.

(** [delete holder[P]] *)
Definition delete (P : string) (props : properties_t) : properties_t :=
  filter (fun kv => negb (String.eqb (fst kv) P)) props.

(** [holder[P] = v]: an existing property keeps its place, a new one
    goes last. *)
Fixpoint Set_ (props : properties_t) (P : string) (v : json) : properties_t :=
  match props with
  | [] => [(P, v)]
  | (k, w) :: rest =>
      if String.eqb k P then (k, v) :: rest else (k, w) :: Set_ rest P v
  end.

(** [{ ...a, ...b }] on property lists. *)
Definition spread_into (a b : properties_t) : properties_t :=
  fold_left (fun acc kv => Set_ acc (fst kv) (snd kv)) b a.

(** [Object.keys(v)]: a [TypeError] on [undefined] and [null], the
    indices of an array or a string, nothing for other primitives. *)
Definition Object_keys (v : json) : outcome (list string) :=
  match v with
  | JUndefined | JNull => Thrown "Cannot convert undefined or null to object"
  | JBool _ | JNum _ => Returned []
  | JStr s => Returned (JSString.index_keys (String.length s))
  | JArr elements => Returned (JSString.index_keys (List.length elements))
  | JObj props => Returned (map fst props)
  end.

(** [{ ...v }]: the own enumerable properties of [v], copied. *)
Definition spread (v : json) : properties_t :=
  match v with
  | JUndefined | JNull | JBool _ | JNum _ => []
  | JStr s =>
      combine (JSString.index_keys (String.length s))
              (map JStr (JSString.chars s))
  | JArr elements =>
      combine (JSString.index_keys (List.length elements)) elements
  | JObj props => props
  end.

(** *** JSON.stringify(value, replacer)

    [K] is the PropertyList: [Some keys] when the replacer is an array
    of keys, [None] without replacer.  With a PropertyList, every
    object at every depth is serialized through that same list
    (SerializeJSONObject, step 5). *)
Fixpoint SerializeJSONProperty (K : option (list string)) (value : json)
  : option string :=
  match value with
  | JUndefined => None
  | JNull => Some "null"
  | JBool true => Some "true"
  | JBool false => Some "false"
  | JNum n => Some (if Number_isFinite n then Number_toString n else "null")
  | JStr s => Some (JSString.QuoteJSONString s)
  | JArr elements =>
      (* SerializeJSONArray *)
      let partial :=
        map (fun e => match SerializeJSONProperty K e with
                      | Some strP => strP
                      | None => "null"
                      end) elements in
      Some ("[" ++ String.concat "," partial ++ "]")
  | JObj props =>
      (* SerializeJSONObject *)
      let fix property (ps : properties_t) (P : string) : option string :=
        match ps with
        | [] => None
        | (k, v) :: rest =>
            if String.eqb k P then SerializeJSONProperty K v
            else property rest P
        end in
      let keys := match K with
                  | Some property_list => property_list
                  | None => map fst props
                  end in
      let partial :=
        flat_map (fun P => match property props P with
                           | Some strP =>
                               [JSString.QuoteJSONString P ++ ":" ++ strP]
                           | None => []
                           end) keys in
      Some ("{" ++ String.concat "," partial ++ "}")
  end.

(** [JSON.stringify(value, keys)];  [None] is [undefined]. *)
Definition JSON_stringify (value : json) (replacer : option (list string))
  : option string :=
  SerializeJSONProperty replacer value.

(** The text of an object, and the member that a key [P] of the
    PropertyList contributes to it: nothing when the object has no
    such property or when its value serializes to [undefined].  They
    restate the object case of [SerializeJSONProperty]
    ([SerializeJSONProperty_object] below). *)
Definition object_text (members : list string) : string :=
  "{" ++ String.concat "," members ++ "}".

Definition member_text (K : option (list string)) (props : properties_t)
    (P : string) : list string :=
  match Get props P with
  | Some v =>
      match SerializeJSONProperty K v with
      | Some strP => [JSString.QuoteJSONString P ++ ":" ++ strP]
      | None => []
      end
  | None => []
  end.

Definition property_list (K : option (list string)) (props : properties_t)
  : list string :=
  match K with
  | Some keys => keys
  | None => map fst props
  end.

(** [prune keep v] is [v] without the properties, at any depth, whose
    key [keep] rejects.  It is not part of the source: it says what a
    replacer array leaves of a value. *)
Fixpoint prune (keep : string -> bool) (v : json) : json :=
  match v with
  | JArr elements => JArr (map (prune keep) elements)
  | JObj props =>
      JObj ((fix kept (ps : properties_t) : properties_t :=
               match ps with
               | [] => []
               | (k, w) :: rest =>
                   if keep k then (k, prune keep w) :: kept rest
                   else kept rest
               end) props)
  | _ => v
  end.

(** The properties [prune] keeps of an object. *)
Definition kept (keep : string -> bool) (props : properties_t) : properties_t :=
  map (fun kv => (fst kv, prune keep (snd kv)))
      (filter (fun kv => keep (fst kv)) props).

(** Two values have the same content when they differ at most in the
    order of the properties of their objects, at any depth.  The
    relation is not part of the source: it states what field-insertion
    order leaves unchanged. *)
Unset Elimination Schemes.
Set Elimination Schemes.

(** Membership of a key in a list of keys. *)
Definition among (keys : list string) (k : string) : bool :=
  existsb (String.eqb k) keys.

(** [ToString(v)], as string concatenation applies it. *)
Fixpoint ToString (v : json) : string :=
  match v with
  | JUndefined => "undefined"
  | JNull => "null"
  | JBool true => "true"
  | JBool false => "false"
  | JNum n => Number_toString n
  | JStr s => s
  | JArr elements =>
      String.concat ","
        (map (fun e => match e with
                       | JUndefined | JNull => EmptyString
                       | _ => ToString e
                       end) elements)
  | JObj _ => "[object Object]"
  end.

(** [value.name] for the property names the source reads: a
    [TypeError] on [undefined] and [null], the own property of an
    object, [undefined] otherwise (none of the names read in the source
    is a property of an array or of a primitive). *)
Definition member (value : json) (name : string) : outcome json :=
  match value with
  | JUndefined | JNull =>
      Thrown ("Cannot read properties of null (reading '" ++ name ++ "')")
  | JObj props =>
      Returned match Get props name with Some v => v | None => JUndefined end
  | _ => Returned JUndefined
  end.

End Values.

(** ** The Node platform

    What the code calls in [crypto], [Buffer] and [JSON.parse].  Each
    field is one call chain of the source, named after its first call. *)

Class Node {Num : JSNumber} : Type := {
  (** [crypto.createHash(algorithm).update(data).digest('hex')] *)
  createHash_hex : forall (algorithm data : string), string;
  (** [s = crypto.createSign(algorithm); s.update(data); s.end();
      s.sign(privateKey, 'base64')] *)
  createSign_base64 : forall (algorithm data privateKey : string), outcome string;
  (** [v = crypto.createVerify(algorithm); v.update(data); v.end();
      v.verify(publicKey, signature, 'base64')] with a PEM string *)
  createVerify_base64 :
    forall (algorithm data publicKey signature : string), outcome bool;
  (** [crypto.createPublicKey(crypto.createPrivateKey(privateKey))
      .export({ type: 'spki', format: 'pem' })] *)
  exportPublicKey : forall (privateKey : string), outcome string;
  (** [crypto.createPublicKey({ key, format: 'pem', type: 'spki' })] *)
  KeyObject : Type;
  createPublicKey : forall (key : string), outcome KeyObject;
  (** [v = crypto.createVerify(algorithm); v.update(data); v.end();
      v.verify(keyObject, Buffer.from(signature, 'base64'))] *)
  createVerify_key :
    forall (algorithm data : string) (key : KeyObject) (signature : string),
      outcome bool;
  (** [Buffer.from(signature, 'base64').length] *)
  Buffer_base64_length : forall (signature : string), number;
  (** [Buffer.from(text).toString('base64')] *)
  Buffer_toBase64 : forall (text : string), string;
  (** [Buffer.from(token, 'base64').toString()] *)
  Buffer_fromBase64 : forall (token : string), string;
  (** [JSON.parse(text)], a [SyntaxError] on malformed text *)
  JSON_parse : forall (text : string), outcome json
}.

(** *** Digest names

    [crypto.createSign(name)] and [crypto.createVerify(name)] look the
    digest up by its name and throw when the platform has no digest of
    that name, before any data, key or signature is read.
    [invalid_digest name message] says that the platform refuses [name]
    in this way, [message] being the message of the error. *)
Definition invalid_digest {Num : JSNumber} {Platform : Node}
    (name message : string) : Prop :=
  (forall data privateKey,
      createSign_base64 name data privateKey = Thrown message)
  /\ (forall data publicKey signature_,
        createVerify_base64 name data publicKey signature_ = Thrown message)
  /\ (forall data key signature_,
        createVerify_key name data key signature_ = Thrown message).

(** ** [class DigitalSignature] *)

Module DigitalSignature.
Section Methods.
Context {Num : JSNumber} {Platform : Node}.

(** [this.algorithm], set by the constructor. *)
Definition algorithm_ : string := "sha256".

(** The signature envelope, [signatureData] in the source. *)
Record SignatureData : Type := {
  digitalSignature : string;
  documentHash : string;
  algorithm : string;
  timestamp : string;
  signerPublicKey : string;
  metadata : properties_t
}.

Record SignResult : Type := {
  success : bool;
  signature : SignatureData;
  result_documentHash : string
}.

Inductive Reason : Type :=
| DOCUMENT_MODIFIED
| INVALID_SIGNATURE
| VERIFICATION_ERROR.

(** The [details] object of a verification result; a field the source
    leaves out of the literal is [None]. *)
Record Details : Type := {
  originalHash : option string;
  currentHash : option string;
  documentIntact : option bool;
  signatureValid : option bool;
  details_algorithm : option string;
  details_timestamp : option string;
  error : option string
}.

Definition no_details : Details :=
  {| originalHash := None; currentHash := None; documentIntact := None;
     signatureValid := None; details_algorithm := None;
     details_timestamp := None; error := None |}.

Record VerifyResult : Type := {
  valid : bool;
  reason : option Reason;
  message : string;
  details : Details
}.

(** [typeof document === 'string' ? document
      : JSON.stringify(document, Object.keys(document).sort())],
    followed by the check [hash.update] makes on its argument. *)
Definition documentString (document : json) : outcome string :=
  match document with
  | JStr s => Returned s
  | _ =>
      (keys <- Object_keys document ;;
       match JSON_stringify document (Some (JSString.sort keys)) with
       | Some text => Returned text
       | None =>
           Thrown "The data argument must be of type string. Received undefined"
       end)%outcome
  end.

Definition extractPublicKeyFromPrivate (privateKey : string) : outcome string :=
  try_catch (exportPublicKey privateKey)
    (fun error_message => Thrown ("Erro ao extrair chave pública: " ++ error_message)).

(** [signDocument(document, privateKey, metadata)];  [now] is
    [new Date().toISOString()]. *)
Definition signDocument (document : json) (privateKey : string)
    (metadata_ : properties_t) (now : string) : outcome SignResult :=
  try_catch
    (documentString_ <- documentString document ;;
     let documentHash_ := createHash_hex algorithm_ documentString_ in
     signature_ <-
       createSign_base64 (algorithm_ ++ "WithRSA") documentHash_ privateKey ;;
     let timestamp_ := now in
     publicKey <- extractPublicKeyFromPrivate privateKey ;;
     let signatureData :=
       {| digitalSignature := signature_;
          documentHash := documentHash_;
          algorithm := algorithm_ ++ "WithRSA";
          timestamp := timestamp_;
          signerPublicKey := publicKey;
          metadata :=
            spread_into metadata_
              [("signatureSize", JNum (Buffer_base64_length signature_));
               ("encoding", JStr "base64")] |} in
     Returned {| success := true;
                 signature := signatureData;
                 result_documentHash := documentHash_ |})%outcome
    (fun error_message => Thrown ("Erro ao assinar documento: " ++ error_message)).

(** The [try] block of [verifySignature].  [signatureData] is [None]
    when the caller passes [undefined] or [null], on which the
    destructuring throws. *)
Definition verifySignature_try (document : json)
    (signatureData : option SignatureData) : outcome VerifyResult :=
  (sd <- match signatureData with
         | Some sd => Returned sd
         | None => Thrown "Cannot destructure property 'digitalSignature' of undefined"
         end ;;
   let originalHash_ := documentHash sd in
   documentString_ <- documentString document ;;
   let currentHash_ := createHash_hex algorithm_ documentString_ in
   let documentIntact_ := String.eqb currentHash_ originalHash_ in
   if negb documentIntact_ then
     Returned {| valid := false;
                 reason := Some DOCUMENT_MODIFIED;
                 message := "Documento foi modificado após a assinatura";
                 details := {| originalHash := Some originalHash_;
                               currentHash := Some currentHash_;
                               documentIntact := Some false;
                               signatureValid := None;
                               details_algorithm := None;
                               details_timestamp := None;
                               error := None |} |}
   else
     signatureValid_ <-
       createVerify_base64 (algorithm sd) originalHash_
         (signerPublicKey sd) (digitalSignature sd) ;;
     if negb signatureValid_ then
       Returned {| valid := false;
                   reason := Some INVALID_SIGNATURE;
                   message := "Assinatura digital inválida";
                   details := {| originalHash := None;
                                 currentHash := None;
                                 documentIntact := Some true;
                                 signatureValid := Some false;
                                 details_algorithm := None;
                                 details_timestamp := None;
                                 error := None |} |}
     else
       Returned {| valid := true;
                   reason := None;
                   message := "Assinatura digital válida";
                   details := {| originalHash := None;
                                 currentHash := None;
                                 documentIntact := Some true;
                                 signatureValid := Some true;
                                 details_algorithm := Some (algorithm sd);
                                 details_timestamp := Some (timestamp sd);
                                 error := None |} |})%outcome.

(** The [catch] block of [verifySignature]. *)
Definition verifySignature_catch (error_message : string) : VerifyResult :=
  {| valid := false;
     reason := Some VERIFICATION_ERROR;
     message := "Erro na verificação: " ++ error_message;
     details := {| originalHash := None; currentHash := None;
                   documentIntact := None; signatureValid := None;
                   details_algorithm := None; details_timestamp := None;
                   error := Some error_message |} |}.

Definition verifySignature (document : json)
    (signatureData : option SignatureData) : outcome VerifyResult :=
  try_catch (verifySignature_try document signatureData)
    (fun error_message => Returned (verifySignature_catch error_message)).

(** [createDocumentHash(document)], outside any [try]. *)
Definition createDocumentHash (document : json) : outcome string :=
  (documentString_ <- documentString document ;;
   Returned (createHash_hex "sha256" documentString_))%outcome.

(** *** The simplified timestamp authority *)

Record Timestamp : Type := {
  ts_timestamp : string;
  token : string
}.

(** The object [{ timestamp, hash, tsa: 'internal-tsa' }]. *)
Definition token_payload (timestamp_ hash : string) : json :=
  JObj [("timestamp", JStr timestamp_); ("hash", JStr hash);
        ("tsa", JStr "internal-tsa")].

(** [Buffer.from(JSON.stringify(payload)).toString('base64')] *)
Definition encode_token (payload : json) : outcome string :=
  match JSON_stringify payload None with
  | Some text => Returned (Buffer_toBase64 text)
  | None => Thrown "The first argument must be of type string. Received undefined"
  end.

(** [generateTimestamp(data)];  [now] is [new Date().toISOString()]. *)
Definition generateTimestamp (data now : string) : outcome Timestamp :=
  try_catch
    (let timestamp_ := now in
     let hash := createHash_hex "sha256" (data ++ timestamp_) in
     token_ <- encode_token (token_payload timestamp_ hash) ;;
     Returned {| ts_timestamp := timestamp_; token := token_ |})%outcome
    (fun error_message => Thrown ("Erro ao gerar timestamp: " ++ error_message)).

(** [a === b] where [a] is a string. *)
Definition strict_equal_string (a : string) (b : json) : bool :=
  match b with
  | JStr s => String.eqb a s
  | _ => false
  end.

Definition verifyTimestamp_try (token_ data : string) : outcome bool :=
  (timestampData <- JSON_parse (Buffer_fromBase64 token_) ;;
   timestamp_ <- member timestampData "timestamp" ;;
   let expectedHash := createHash_hex "sha256" (data ++ ToString timestamp_) in
   hash <- member timestampData "hash" ;;
   Returned (strict_equal_string expectedHash hash))%outcome.

(** [verifyTimestamp(token, data)]: every exception becomes [false]. *)
Definition verifyTimestamp (token_ data : string) : bool :=
  match verifyTimestamp_try token_ data with
  | Returned b => b
  | Thrown _ => false
  end.

(** *** Canonicalization *)

Definition excludeFields : list string :=
  ["_id"; "__v"; "createdAt"; "updatedAt"; "signature"; "history"].

(** A property is signable when its key is none of [excludeFields]. *)
Definition signable (kv : string * json) : bool :=
  negb (among excludeFields (fst kv)).

(** [cleanDocument = { ...document };
    excludeFields.forEach(field => delete cleanDocument[field])] *)
Definition cleanDocument (document : json) : properties_t :=
  fold_left (fun clean field => delete field clean) excludeFields
    (spread document).

(** [canonicalizeDocument(document)]: the value [JSON.stringify]
    returns, [None] standing for [undefined]. *)
Definition canonicalizeDocument (document : json) : option string :=
  let clean := cleanDocument document in
  JSON_stringify (JObj clean) (Some (JSString.sort (map fst clean))).

(** *** What the statements assume of their inputs *)

(** The shapes of a document: raw text or a structured mapping. *)
Definition is_document (document : json) : bool :=
  match document with
  | JStr _ | JObj _ => true
  | _ => false
  end.

(** A token payload survives its encoding when decoding the token
    gives it back: base64 and [JSON.parse] undo [JSON.stringify] and
    base64 on it. *)
Definition decodes (payload : json) : Prop :=
  match encode_token payload with
  | Returned token_ => JSON_parse (Buffer_fromBase64 token_) = Returned payload
  | Thrown _ => False
  end.

End Methods.
End DigitalSignature.

(** ** The [Signature] model *)

Module SignatureModel.
Section Schema.
Context {Num : JSNumber} {Platform : Node}.

Inductive Status : Type :=
| valid | invalid | revoked | expired | pending_verification.

Definition Status_eqb (a b : Status) : bool :=
  match a, b with
  | valid, valid | invalid, invalid | revoked, revoked
  | expired, expired | pending_verification, pending_verification => true
  | _, _ => false
  end.

Inductive Method : Type := automatic | manual.

Inductive Action : Type :=
| created | verified | invalidated | action_revoked.

(** The result of one verification, ['valid'] or ['invalid']. *)
Inductive Result : Type := result_valid | result_invalid.

(** An [ObjectId] reference. *)
Definition ObjectId : Type := string.

(** A [Date], in milliseconds since the epoch. *)
Definition Date : Type := Z.

Record VerificationDetails : Type := {
  signatureValid : bool;
  certificateValid : bool;
  timestampValid : bool;
  documentIntact : bool;
  errors : list string
}.

Record Verification : Type := {
  verifiedAt : Date;
  verifiedBy : ObjectId;
  result : Result;
  details : VerificationDetails;
  method : Method
}.

Record AuditEntry : Type := {
  action : Action;
  performedBy : option ObjectId;
  audit_timestamp : Date;
  reason : option string;
  audit_details : option json
}.

(** The [certificate] path.  It is a nested path of the schema, not a
    sub-document: [this.certificate] is an object for every record, and
    a record without certificate is one whose fields are all unset
    ([None]).  [validTo] is the one field the methods read. *)
Record Certificate : Type := {
  serialNumber : option string;
  validFrom : option Date;
  validTo : option Date
}.

Record Revocation : Type := {
  revokedAt : Date;
  revokedBy : ObjectId;
  revocation_reason : string;
  revocation_details : string
}.

(** A [Signature] document in memory.  [_performedBy], [_actionReason]
    and [_actionDetails] are the transient fields the methods leave for
    the [pre('save')] middleware; [isNew] and [status_isModified] are
    Mongoose's bookkeeping, read by [this.isNew] and
    [this.isModified('status')]. *)
Record SignatureRecord : Type := {
  document : ObjectId;
  signer : ObjectId;
  digitalSignature : string;
  documentHash : string;
  algorithm : string;
  publicKey : string;
  certificate : Certificate;
  timestampToken : option string;
  status : Status;
  verifications : list Verification;
  auditTrail : list AuditEntry;
  revocation : option Revocation;
  _performedBy : option ObjectId;
  _actionReason : option string;
  _actionDetails : option json;
  isNew : bool;
  status_isModified : bool
}.

(** The values that the schema allows for [algorithm]. *)
Definition algorithm_values : list string :=
  ["SHA256withRSA"; "SHA256withECDSA"; "SHA512withRSA"].

(** The values that the schema allows for [revocation.reason]. *)
Definition revocation_reasons : list string :=
  ["key_compromise"; "affiliation_changed"; "superseded";
   "cessation_of_operation"; "privilege_withdrawn"].

(** The collaborators of the model: the [Expense] collection and the
    two steps of Mongoose's [save()] around the [pre('save')]
    middleware of the schema.  [validate] is the validation of the
    document against the schema, which Mongoose runs before that
    middleware; [write] is the write to the collection, which comes
    after it.  Either may reject. *)
Class Store : Type := {
  Expense_findById : forall (id : ObjectId), outcome json;
  validate : forall (record : SignatureRecord), outcome unit;
  write : forall (record : SignatureRecord), outcome unit
}.

Context {Persistence : Store}.

(** *** Field updates *)

(** [this.status = s]: Mongoose marks the path modified when the value
    changes. *)
Definition assign_status (s : Status) (this : SignatureRecord) : SignatureRecord :=
  {| document := document this; signer := signer this;
     digitalSignature := digitalSignature this;
     documentHash := documentHash this; algorithm := algorithm this;
     publicKey := publicKey this; certificate := certificate this;
     timestampToken := timestampToken this;
     status := s;
     verifications := verifications this; auditTrail := auditTrail this;
     revocation := revocation this;
     _performedBy := _performedBy this; _actionReason := _actionReason this;
     _actionDetails := _actionDetails this;
     isNew := isNew this;
     status_isModified :=
       status_isModified this || negb (Status_eqb (status this) s) |}.

(** [this.verifications.push(v)] *)
Definition push_verification (v : Verification) (this : SignatureRecord)
  : SignatureRecord :=
  {| document := document this; signer := signer this;
     digitalSignature := digitalSignature this;
     documentHash := documentHash this; algorithm := algorithm this;
     publicKey := publicKey this; certificate := certificate this;
     timestampToken := timestampToken this;
     status := status this;
     verifications := verifications this ++ [v];
     auditTrail := auditTrail this;
     revocation := revocation this;
     _performedBy := _performedBy this; _actionReason := _actionReason this;
     _actionDetails := _actionDetails this;
     isNew := isNew this; status_isModified := status_isModified this |}.

(** [this.auditTrail.push(e)] *)
Definition push_audit (e : AuditEntry) (this : SignatureRecord)
  : SignatureRecord :=
  {| document := document this; signer := signer this;
     digitalSignature := digitalSignature this;
     documentHash := documentHash this; algorithm := algorithm this;
     publicKey := publicKey this; certificate := certificate this;
     timestampToken := timestampToken this;
     status := status this;
     verifications := verifications this;
     auditTrail := auditTrail this ++ [e];
     revocation := revocation this;
     _performedBy := _performedBy this; _actionReason := _actionReason this;
     _actionDetails := _actionDetails this;
     isNew := isNew this; status_isModified := status_isModified this |}.

(** Assignments to the transient fields; [None] leaves a field as it
    is. *)
Definition assign_transient (by_ : option ObjectId) (why : option string)
    (what : option json) (this : SignatureRecord) : SignatureRecord :=
  {| document := document this; signer := signer this;
     digitalSignature := digitalSignature this;
     documentHash := documentHash this; algorithm := algorithm this;
     publicKey := publicKey this; certificate := certificate this;
     timestampToken := timestampToken this;
     status := status this;
     verifications := verifications this; auditTrail := auditTrail this;
     revocation := revocation this;
     _performedBy :=
       match by_ with Some _ => by_ | None => _performedBy this end;
     _actionReason :=
       match why with Some _ => why | None => _actionReason this end;
     _actionDetails :=
       match what with Some _ => what | None => _actionDetails this end;
     isNew := isNew this; status_isModified := status_isModified this |}.

(** [this.revocation = r] *)
Definition assign_revocation (r : Revocation) (this : SignatureRecord)
  : SignatureRecord :=
  {| document := document this; signer := signer this;
     digitalSignature := digitalSignature this;
     documentHash := documentHash this; algorithm := algorithm this;
     publicKey := publicKey this; certificate := certificate this;
     timestampToken := timestampToken this;
     status := status this;
     verifications := verifications this; auditTrail := auditTrail this;
     revocation := Some r;
     _performedBy := _performedBy this; _actionReason := _actionReason this;
     _actionDetails := _actionDetails this;
     isNew := isNew this; status_isModified := status_isModified this |}.

(** What a successful write leaves: the document is no longer new and
    no path is modified. *)
Definition mark_saved (this : SignatureRecord) : SignatureRecord :=
  {| document := document this; signer := signer this;
     digitalSignature := digitalSignature this;
     documentHash := documentHash this; algorithm := algorithm this;
     publicKey := publicKey this; certificate := certificate this;
     timestampToken := timestampToken this;
     status := status this;
     verifications := verifications this; auditTrail := auditTrail this;
     revocation := revocation this;
     _performedBy := _performedBy this; _actionReason := _actionReason this;
     _actionDetails := _actionDetails this;
     isNew := false; status_isModified := false |}.

(** *** Methods

    A method runs on [this], which it mutates in place: what it has
    written stays written when it throws. *)
Definition method_of (A : Type) : Type :=
  SignatureRecord -> outcome A * SignatureRecord.

Definition ret {A} (a : A) : method_of A := fun this => (Returned a, this).

Definition bind {A B} (c : method_of A) (k : A -> method_of B) : method_of B :=
  fun this =>
    match c this with
    | (Returned a, this') => k a this'
    | (Thrown m, this') => (Thrown m, this')
    end.

(** A call that does not touch [this]. *)
Definition call {A} (c : outcome A) : method_of A := fun this => (c, this).

Definition read : method_of SignatureRecord := fun this => (Returned this, this).

Definition update (f : SignatureRecord -> SignatureRecord) : method_of unit :=
  fun this => (Returned tt, f this).

(** [try { body } catch (error) { handler(error.message) }] *)
Definition try_ {A} (body : method_of A) (handler : string -> method_of A)
  : method_of A :=
  fun this =>
    match body this with
    | (Returned a, this') => (Returned a, this')
    | (Thrown m, this') => handler m this'
    end.

Declare Scope method_scope.
Delimit Scope method_scope with method.
Notation "x <- c ;; k" := (bind c (fun x => k))
  (at level 61, c at next level, right associativity) : method_scope.
Notation "c ;; k" := (bind c (fun _ => k))
  (at level 61, right associativity) : method_scope.

(** The [pre('save')] middleware;  [now] is the default of the entry's
    [timestamp]. *)
Definition pre_save (now : Date) (this : SignatureRecord) : SignatureRecord :=
  if status_isModified this && negb (isNew this) then
    let action_ :=
      match status this with
      | valid => verified
      | invalid => invalidated
      | revoked => action_revoked
      | _ => created
      end in
    push_audit {| action := action_;
                  performedBy := _performedBy this;
                  audit_timestamp := now;
                  reason := _actionReason this;
                  audit_details := _actionDetails this |} this
  else this.

(** [this.save()]: validation, then the middleware, then the write.
    A document that validation rejects does not reach the middleware. *)
Definition save (now : Date) : method_of unit :=
  (this <- read ;;
   call (validate this) ;;
   update (pre_save now) ;;
   this <- read ;;
   call (write this) ;;
   update mark_saved)%method.

(** A token is truthy when it is neither [null] nor the empty
    string. *)
Definition truthy (token : option string) : bool :=
  match token with
  | Some t => negb (String.eqb t EmptyString)
  | None => false
  end.

(** [signatureSchema.methods.verifyTimestamp] *)
Definition verifyTimestamp (this : SignatureRecord) : bool :=
  if negb (truthy (timestampToken this)) then true
  else
    match timestampToken this with
    | Some t => Nat.ltb 0 (String.length t)
    | None => false
    end.

(** [Array.prototype.map] with a callback that may throw. *)
Fixpoint map_outcome {A B} (f : A -> outcome B) (l : list A) : outcome (list B) :=
  match l with
  | [] => Returned []
  | a :: rest =>
      (b <- f a ;; bs <- map_outcome f rest ;; Returned (b :: bs))%outcome
  end.

(** [signatureSchema.methods.calculateDocumentHash] *)
Definition calculateDocumentHash (document_ : json) : outcome string :=
  (title <- member document_ "title" ;;
   description <- member document_ "description" ;;
   amount <- member document_ "amount" ;;
   currency <- member document_ "currency" ;;
   category <- member document_ "category" ;;
   expenseDate <- member document_ "expenseDate" ;;
   employee <- member document_ "employee" ;;
   receipts <- member document_ "receipts" ;;
   receipts' <-
     match receipts with
     | JArr rs =>
         map_outcome
           (fun r =>
              filename <- member r "filename" ;;
              size <- member r "size" ;;
              mimetype <- member r "mimetype" ;;
              Returned (JObj [("filename", filename); ("size", size);
                              ("mimetype", mimetype)])) rs
     | JUndefined | JNull =>
         Thrown "Cannot read properties of undefined (reading 'map')"
     | _ => Thrown "document.receipts.map is not a function"
     end ;;
   let documentData :=
     JObj [("title", title); ("description", description);
           ("amount", amount); ("currency", currency);
           ("category", category); ("expenseDate", expenseDate);
           ("employee", employee); ("receipts", JArr receipts')] in
   keys <- Object_keys documentData ;;
   match JSON_stringify documentData (Some (JSString.sort keys)) with
   | Some documentString => Returned (createHash_hex "sha256" documentString)
   | None =>
       Thrown "The data argument must be of type string. Received undefined"
   end)%outcome.

(** [certificate.validTo > new Date()];  an unset [validTo] is
    [undefined], which compares false. *)
Definition later_than (validTo_ : option Date) (now : Date) : bool :=
  match validTo_ with
  | Some t => Z.ltb now t
  | None => false
  end.

(** The [try] block of [verify]. *)
Definition verify_try (verifiedBy_ : ObjectId) (method_ : Method) (now : Date)
  : method_of bool :=
  (this <- read ;;
   publicKey_ <- call (createPublicKey (publicKey this)) ;;
   isSignatureValid <-
     call (createVerify_key (JSString.remove_first "with" (algorithm this))
             (documentHash this) publicKey_ (digitalSignature this)) ;;
   document_ <- call (Expense_findById (document this)) ;;
   currentDocumentHash <- call (calculateDocumentHash document_) ;;
   let isDocumentIntact := String.eqb currentDocumentHash (documentHash this) in
   (* [this.certificate] is an object, so the guard [if
      (this.certificate)] always passes *)
   let isCertificateValid := later_than (validTo (certificate this)) now in
   let isTimestampValid :=
     if truthy (timestampToken this) then verifyTimestamp this else true in
   let isValid :=
     isSignatureValid && isDocumentIntact && isCertificateValid
     && isTimestampValid in
   update (push_verification
             {| verifiedAt := now;
                verifiedBy := verifiedBy_;
                result := if isValid then result_valid else result_invalid;
                details := {| signatureValid := isSignatureValid;
                              certificateValid := isCertificateValid;
                              timestampValid := isTimestampValid;
                              documentIntact := isDocumentIntact;
                              errors := [] |};
                method := method_ |}) ;;
   this <- read ;;
   (if Status_eqb (status this) pending_verification then
      update (assign_status (if isValid then valid else invalid)) ;;
      update (assign_transient (Some verifiedBy_)
                (Some "Verificação automática da assinatura") None)
    else ret tt) ;;
   save now ;;
   ret isValid)%method.

(** The [catch] block of [verify]. *)
Definition verify_catch (verifiedBy_ : ObjectId) (method_ : Method) (now : Date)
    (error_message : string) : method_of bool :=
  (update (push_verification
             {| verifiedAt := now;
                verifiedBy := verifiedBy_;
                result := result_invalid;
                details := {| signatureValid := false;
                              certificateValid := false;
                              timestampValid := false;
                              documentIntact := false;
                              errors := [error_message] |};
                method := method_ |}) ;;
   update (assign_status invalid) ;;
   update (assign_transient (Some verifiedBy_)
             (Some "Erro na verificação da assinatura")
             (Some (JObj [("error", JStr error_message)]))) ;;
   save now ;;
   ret false)%method.

(** [signatureSchema.methods.verify];  [now] stands for the dates the
    call takes ([new Date()] and the [Date.now] defaults). *)
Definition verify (verifiedBy_ : ObjectId) (method_ : Method) (now : Date)
  : method_of bool :=
  try_ (verify_try verifiedBy_ method_ now)
       (verify_catch verifiedBy_ method_ now).

(** [signatureSchema.methods.revoke] *)
Definition revoke (revokedBy_ : ObjectId) (reason_ details_ : string)
    (now : Date) : method_of unit :=
  (update (assign_status revoked) ;;
   update (assign_revocation {| revokedAt := now;
                                revokedBy := revokedBy_;
                                revocation_reason := reason_;
                                revocation_details := details_ |}) ;;
   update (assign_transient (Some revokedBy_) (Some reason_)
             (Some (JStr details_))) ;;
   save now)%method.

End Schema.
End SignatureModel.

(** ** A small executable platform

    An implementation of the interfaces on which the methods run on
    concrete inputs: integers for numbers, a transparent stand-in for the
    hash and the signature scheme, base64 over bytes, and a reader for the
    JSON texts that consist of one object with string members. *)

Module Sample.

Definition Z_toString (z : Z) : string :=
  NilZero.string_of_int (Z.to_int z).

#[export] Instance integers : JSNumber :=
  {| number := Z;
     Number_toString := Z_toString;
     Number_isFinite := fun _ => true |}.

(** *** base64 *)

Definition alphabet : string :=
  "ABCDEFGHIJKLMNOPQRSTUVWXYZabcdefghijklmnopqrstuvwxyz0123456789+/".

Definition sextet_char (n : nat) : ascii :=
  match String.get n alphabet with
  | Some c => c
  | None => "="%char
  end.

Fixpoint encode_bytes (bytes : list nat) : string :=
  match bytes with
  | [] => EmptyString
  | [a] =>
      String (sextet_char (a / 4))
        (String (sextet_char ((a mod 4) * 16)) "==")
  | [a; b] =>
      String (sextet_char (a / 4))
        (String (sextet_char ((a mod 4) * 16 + b / 16))
           (String (sextet_char ((b mod 16) * 4)) "="))
  | a :: b :: c :: rest =>
      String (sextet_char (a / 4))
        (String (sextet_char ((a mod 4) * 16 + b / 16))
           (String (sextet_char ((b mod 16) * 4 + c / 64))
              (String (sextet_char (c mod 64)) (encode_bytes rest))))
  end.

Definition toBase64 (text : string) : string :=
  encode_bytes (map nat_of_ascii (list_ascii_of_string text)).

Fixpoint char_sextet_from (n : nat) (table : string) (c : ascii) : option nat :=
  match table with
  | EmptyString => None
  | String d rest =>
      if Ascii.eqb c d then Some n else char_sextet_from (S n) rest c
  end.

(** The sextets of a base64 text; characters outside the alphabet are
    skipped. *)
Fixpoint sextets (text : string) : list nat :=
  match text with
  | EmptyString => []
  | String c rest =>
      match char_sextet_from 0 alphabet c with
      | Some n => n :: sextets rest
      | None => sextets rest
      end
  end.

Fixpoint decode_sextets (l : list nat) : list nat :=
  match l with
  | a :: b :: c :: d :: rest =>
      (a * 4 + b / 16) :: ((b mod 16) * 16 + c / 4)
        :: ((c mod 4) * 64 + d) :: decode_sextets rest
  | [a; b; c] => [a * 4 + b / 16; (b mod 16) * 16 + c / 4]
  | [a; b] => [a * 4 + b / 16]
  | _ => []
  end.

Definition fromBase64 (token : string) : string :=
  string_of_list_ascii (map ascii_of_nat (decode_sextets (sextets token))).

(** *** A reader for flat JSON objects of strings *)

(** The characters up to the next double quote, and what follows it;
    no escapes. *)
Fixpoint quoted (text : string) : option (string * string) :=
  match text with
  | EmptyString => None
  | String c rest =>
      if Ascii.eqb c JSString.dquote then Some (EmptyString, rest)
      else if Ascii.eqb c "\"%char then None
      else match quoted rest with
           | Some (s, rest') => Some (String c s, rest')
           | None => None
           end
  end.

Fixpoint members (fuel : nat) (text : string) : option (list (string * json)) :=
  match fuel with
  | O => None
  | S fuel' =>
      match text with
      | String q rest =>
          if Ascii.eqb q JSString.dquote then
            match quoted rest with
            | Some (key, String ":"%char (String q' rest')) =>
                if Ascii.eqb q' JSString.dquote then
                  match quoted rest' with
                  | Some (value, "}") => Some [(key, JStr value)]
                  | Some (value, String ","%char rest'') =>
                      match members fuel' rest'' with
                      | Some more => Some ((key, JStr value) :: more)
                      | None => None
                      end
                  | _ => None
                  end
                else None
            | _ => None
            end
          else None
      | EmptyString => None
      end
  end.

Definition parse (text : string) : outcome json :=
  match text with
  | "{}" => Returned (JObj [])
  | "null" => Returned JNull
  | String "{"%char rest =>
      match members (String.length rest) rest with
      | Some props => Returned (JObj props)
      | None => Thrown "Unexpected token in JSON"
      end
  | _ => Thrown "Unexpected token in JSON"
  end.

(** *** Hash and signatures

    The stand-in hash keeps its input; a private key [PRIV k] has the
    public key [PUB k], and a signature names the key, the algorithm
    and the data it was made from.  Signing and verifying know the
    digests by the names in [digests] and refuse every other name, as
    Node does. *)

Definition hash (algorithm data : string) : string :=
  algorithm ++ ":" ++ data.

Definition digests : list string :=
  ["RSA-SHA256"; "sha256WithRSAEncryption"; "sha256"; "SHA256";
   "RSA-SHA512"; "sha512WithRSAEncryption"; "sha512"; "SHA512"].

Definition known_digest (algorithm : string) : bool := among digests algorithm.

Definition signature_of (k algorithm data : string) : string :=
  "sig/" ++ k ++ "/" ++ algorithm ++ "/" ++ data.

Definition sign (algorithm data privateKey : string) : outcome string :=
  if known_digest algorithm then
    match JSString.drop_prefix "PRIV " privateKey with
    | Some k => Returned (signature_of k algorithm data)
    | None => Thrown "error:1E08010C:DECODER routines::unsupported"
    end
  else Thrown "Invalid digest".

Definition public_of (privateKey : string) : outcome string :=
  match JSString.drop_prefix "PRIV " privateKey with
  | Some k => Returned ("PUB " ++ k)
  | None => Thrown "error:1E08010C:DECODER routines::unsupported"
  end.

Definition key_of (publicKey : string) : outcome string :=
  match JSString.drop_prefix "PUB " publicKey with
  | Some k => Returned k
  | None => Thrown "error:1E08010C:DECODER routines::unsupported"
  end.

Definition check_key (algorithm data k signature_ : string) : outcome bool :=
  if known_digest algorithm then
    Returned (String.eqb signature_ (signature_of k algorithm data))
  else Thrown "Invalid digest".

Definition check (algorithm data publicKey signature_ : string) : outcome bool :=
  if known_digest algorithm then
    (k <- key_of publicKey ;; check_key algorithm data k signature_)%outcome
  else Thrown "Invalid digest".

#[export] Instance platform : Node :=
  {| createHash_hex := hash;
     createSign_base64 := sign;
     createVerify_base64 := check;
     exportPublicKey := public_of;
     KeyObject := string;
     createPublicKey := key_of;
     createVerify_key := check_key;
     Buffer_base64_length := fun s => Z.of_nat (String.length (fromBase64 s));
     Buffer_toBase64 := toBase64;
     Buffer_fromBase64 := fromBase64;
     JSON_parse := parse |}.

(** *** A store

    [expenses] lists the documents by id; an unknown id finds [null].
    Validation checks what the schema asks of the fields of the model:
    the required strings and references, the values of [algorithm] and
    of [revocation.reason], and the performer of every audit entry.
    Every write is accepted. *)

Definition present (s : string) : bool := negb (String.eqb s EmptyString).

Definition validates (r : SignatureModel.SignatureRecord) : bool :=
  present (SignatureModel.document r)
  && present (SignatureModel.signer r)
  && present (SignatureModel.digitalSignature r)
  && present (SignatureModel.documentHash r)
  && among SignatureModel.algorithm_values (SignatureModel.algorithm r)
  && present (SignatureModel.publicKey r)
  && forallb (fun v => present (SignatureModel.verifiedBy v))
       (SignatureModel.verifications r)
  && forallb (fun e => match SignatureModel.performedBy e with
                       | Some by_ => present by_
                       | None => false
                       end)
       (SignatureModel.auditTrail r)
  && match SignatureModel.revocation r with
     | Some rv =>
         among SignatureModel.revocation_reasons
           (SignatureModel.revocation_reason rv)
     | None => true
     end.

Definition validation (r : SignatureModel.SignatureRecord) : outcome unit :=
  if validates r then Returned tt else Thrown "Signature validation failed".

Definition store (expenses : list (string * json)) : SignatureModel.Store :=
  {| SignatureModel.Expense_findById :=
       fun id => Returned match Get expenses id with
                          | Some d => d
                          | None => JNull
                          end;
     SignatureModel.validate := validation;
     SignatureModel.write := fun _ => Returned tt |}.

End Sample.

(** ** Sample documents and records *)

Module Fixtures.
Import Sample.

(** An expense whose receipt is a nested object. *)
Definition expense_with_receipt {Num : JSNumber} (amount : json) : json :=
  JObj [("title", JStr "Flight"); ("receipt", JObj [("amount", amount)])].

(** The amount on a receipt when the expense is signed, and after a
    change. *)
Definition signed_amount : json := JNum 120%Z.
Definition changed_amount : json := JNum 130%Z.

(** The expense of the scenario: a title and an amount. *)
Definition flight : json :=
  JObj [("title", JStr "Flight"); ("amount", JNum 120%Z)].



(** An [Expense] document as the model reads it. *)
Definition expense : json :=
  JObj [("title", JStr "Flight"); ("description", JStr "Lisbon");
        ("amount", JNum 120%Z); ("currency", JStr "EUR");
        ("category", JStr "travel");
        ("expenseDate", JStr "2024-01-01T00:00:00.000Z");
        ("employee", JStr "u1");
        ("receipts",
         JArr [JObj [("filename", JStr "r.pdf"); ("size", JNum 10%Z);
                     ("mimetype", JStr "application/pdf")]])].

#[export] Instance expenses : SignatureModel.Store :=
  Sample.store [("e1", expense)].

Definition expense_hash : string :=
  match SignatureModel.calculateDocumentHash expense with
  | Returned h => h
  | Thrown _ => EmptyString
  end.

(** A record without certificate: no field of the path is set. *)
Definition no_certificate : SignatureModel.Certificate :=
  {| SignatureModel.serialNumber := None;
     SignatureModel.validFrom := None;
     SignatureModel.validTo := None |}.

(** A signature record of [expense], signed with the key [k1] under
    the digest name [RSA-SHA256]. *)
Definition record (publicKey_ : string) (status_ : SignatureModel.Status)
    (isNew_ : bool) (timestampToken_ : option string)
  : SignatureModel.SignatureRecord :=
  {| SignatureModel.document := "e1";
     SignatureModel.signer := "u1";
     SignatureModel.digitalSignature :=
       Sample.signature_of "k1" "RSA-SHA256" expense_hash;
     SignatureModel.documentHash := expense_hash;
     SignatureModel.algorithm := "SHA256withRSA";
     SignatureModel.publicKey := publicKey_;
     SignatureModel.certificate := no_certificate;
     SignatureModel.timestampToken := timestampToken_;
     SignatureModel.status := status_;
     SignatureModel.verifications := [];
     SignatureModel.auditTrail := [];
     SignatureModel.revocation := None;
     SignatureModel._performedBy := None;
     SignatureModel._actionReason := None;
     SignatureModel._actionDetails := None;
     SignatureModel.isNew := isNew_;
     SignatureModel.status_isModified := false |}.

End Fixtures.

(** * Further code of the two files

    The methods of [DigitalSignature] and of the [Signature] model that
    the statements above do not reach: password hashing, the [isValid]
    and [lastVerification] virtuals and [getStatistics]. *)

(** ** Password hashing *)

(** [crypto.pbkdf2Sync(password, salt, iterations, keylen, digest)
    .toString('hex')] *)
Class KeyDerivation : Type := {
  pbkdf2Sync_hex :
    forall (password salt : string) (iterations keylen : Z) (digest : string),
      string
}.

Module Passwords.
Section Methods.
Context {KDF : KeyDerivation}.

Record PasswordHash : Type := {
  hash : string;
  salt : string
}.

(** [salt || crypto.randomBytes(32).toString('hex')]: [null] and the
    empty string are falsy.  [random] is the value the call to
    [randomBytes] gives. *)
Definition saltBytes (salt_ : option string) (random : string) : string :=
  match salt_ with
  | Some s => if String.eqb s EmptyString then random else s
  | None => random
  end.

(** [hashPassword(password, salt = null)] *)
Definition hashPassword (password : string) (salt_ : option string)
    (random : string) : PasswordHash :=
  let salt' := saltBytes salt_ random in
  {| hash := pbkdf2Sync_hex password salt' 100000%Z 64%Z "sha512";
     salt := salt' |}.

(** [verifyPassword(password, hash, salt)] *)
Definition verifyPassword (password hash_ salt_ : string) : bool :=
  String.eqb (pbkdf2Sync_hex password salt_ 100000%Z 64%Z "sha512") hash_.

End Methods.
End Passwords.

(** ** Virtuals and statistics of the [Signature] model *)

Module SignatureQueries.
Section Virtuals.
Context {Num : JSNumber}.
Import SignatureModel.

(** [this.certificate && this.certificate.validTo
    && this.certificate.validTo < new Date()] *)
Definition certificate_expired (now : Date) (this : SignatureRecord) : bool :=
  match validTo (certificate this) with
  | Some t => Z.ltb t now
  | None => false
  end.

(** The [isValid] virtual;  [now] is [new Date()]. *)
Definition isValid (now : Date) (this : SignatureRecord) : bool :=
  if Status_eqb (status this) revoked || Status_eqb (status this) expired
  then false
  else if certificate_expired now this then false
  else Status_eqb (status this) valid.

(** [this.verifications = l], as the in-place sort leaves it. *)
Definition assign_verifications (l : list Verification) (this : SignatureRecord)
  : SignatureRecord :=
  {| document := document this; signer := signer this;
     digitalSignature := digitalSignature this;
     documentHash := documentHash this; algorithm := algorithm this;
     publicKey := publicKey this; certificate := certificate this;
     timestampToken := timestampToken this;
     status := status this;
     verifications := l;
     auditTrail := auditTrail this;
     revocation := revocation this;
     _performedBy := _performedBy this; _actionReason := _actionReason this;
     _actionDetails := _actionDetails this;
     isNew := isNew this; status_isModified := status_isModified this |}.

(** [array.sort((a, b) => b.verifiedAt - a.verifiedAt)]: latest first;
    the sort is stable, entries of the same date keep their order. *)
Fixpoint insert_latest_first (x : Verification) (l : list Verification)
  : list Verification :=
  match l with
  | [] => [x]
  | y :: rest =>
      if Z.leb (verifiedAt y - verifiedAt x) 0 then x :: l
      else y :: insert_latest_first x rest
  end.

Fixpoint sort_latest_first (l : list Verification) : list Verification :=
  match l with
  | [] => []
  | x :: rest => insert_latest_first x (sort_latest_first rest)
  end.

(** The order the sort leaves: no entry is earlier than those after
    it. *)
Definition not_earlier (a b : Verification) : Prop :=
  (verifiedAt b <= verifiedAt a)%Z.

(** The [lastVerification] virtual.  It sorts [this.verifications] in
    place and returns the first entry, [None] standing for [null]. *)
Definition lastVerification (this : SignatureRecord)
  : option Verification * SignatureRecord :=
  match verifications this with
  | [] => (None, this)
  | _ :: _ =>
      let sorted := sort_latest_first (verifications this) in
      (hd_error sorted, assign_verifications sorted this)
  end.

(** *** The values [verify] and the middleware write

    Names for the object literals of the source, used in the statements
    about [verify], [revoke] and [save]. *)

(** The entry that the [try] block of [verify] pushes. *)
Definition evidence (verifiedBy_ : ObjectId) (method_ : Method) (now : Date)
    (isSignatureValid isDocumentIntact isCertificateValid isTimestampValid : bool)
  : Verification :=
  {| verifiedAt := now;
     verifiedBy := verifiedBy_;
     result := if isSignatureValid && isDocumentIntact && isCertificateValid
                  && isTimestampValid
               then result_valid else result_invalid;
     details := {| signatureValid := isSignatureValid;
                   certificateValid := isCertificateValid;
                   timestampValid := isTimestampValid;
                   documentIntact := isDocumentIntact;
                   errors := [] |};
     method := method_ |}.

(** The entry that the [catch] block of [verify] pushes. *)
Definition failure_evidence (verifiedBy_ : ObjectId) (method_ : Method)
    (now : Date) (error_message : string) : Verification :=
  {| verifiedAt := now;
     verifiedBy := verifiedBy_;
     result := result_invalid;
     details := {| signatureValid := false;
                   certificateValid := false;
                   timestampValid := false;
                   documentIntact := false;
                   errors := [error_message] |};
     method := method_ |}.

(** The entry that the middleware pushes for [this]. *)
Definition audit_entry (now : Date) (this : SignatureRecord) : AuditEntry :=
  {| action := match status this with
               | valid => verified
               | invalid => invalidated
               | revoked => action_revoked
               | _ => created
               end;
     performedBy := _performedBy this;
     audit_timestamp := now;
     reason := _actionReason this;
     audit_details := _actionDetails this |}.

(** The callback of [document.receipts.map] in
    [calculateDocumentHash]. *)
Definition receipt_view (r : json) : outcome json :=
  (filename <- member r "filename" ;;
   size <- member r "size" ;;
   mimetype <- member r "mimetype" ;;
   Returned (JObj [("filename", filename); ("size", size);
                   ("mimetype", mimetype)]))%outcome.

(** The certificate and timestamp checks of [verify]. *)
Definition isCertificateValid (now : Date) (this : SignatureRecord) : bool :=
  later_than (validTo (certificate this)) now.

Definition isTimestampValid (this : SignatureRecord) : bool :=
  if truthy (timestampToken this) then verifyTimestamp this else true.

(** The state in which the [try] block of [verify] calls [save], given
    what the signature check and the hash comparison returned. *)
Definition staged (verifiedBy_ : ObjectId) (method_ : Method) (now : Date)
    (isSignatureValid isDocumentIntact : bool) (this : SignatureRecord)
  : SignatureRecord :=
  let cv := isCertificateValid now this in
  let tv := isTimestampValid this in
  let pushed :=
    push_verification
      (evidence verifiedBy_ method_ now isSignatureValid isDocumentIntact cv tv)
      this in
  if Status_eqb (status this) pending_verification then
    assign_transient (Some verifiedBy_)
      (Some "Verificação automática da assinatura") None
      (assign_status
         (if isSignatureValid && isDocumentIntact && cv && tv
          then valid else invalid) pushed)
  else pushed.

(** The state in which the [catch] block of [verify] calls [save]. *)
Definition caught (verifiedBy_ : ObjectId) (method_ : Method) (now : Date)
    (error_message : string) (this : SignatureRecord) : SignatureRecord :=
  assign_transient (Some verifiedBy_)
    (Some "Erro na verificação da assinatura")
    (Some (JObj [("error", JStr error_message)]))
    (assign_status invalid
       (push_verification
          (failure_evidence verifiedBy_ method_ now error_message) this)).

(** The state that a [verify] leaves when its [try] block threw
    [error_message] and the [save] of its [catch] block was accepted. *)
Definition failed (verifiedBy_ : ObjectId) (method_ : Method) (now : Date)
    (error_message : string) (this : SignatureRecord) : SignatureRecord :=
  mark_saved (pre_save now (caught verifiedBy_ method_ now error_message this)).

(** The state in which [revoke] calls [save]. *)
Definition revoking (revokedBy_ : ObjectId) (reason_ details_ : string)
    (now : Date) (this : SignatureRecord) : SignatureRecord :=
  assign_transient (Some revokedBy_) (Some reason_) (Some (JStr details_))
    (assign_revocation {| revokedAt := now;
                          revokedBy := revokedBy_;
                          revocation_reason := reason_;
                          revocation_details := details_ |}
       (assign_status revoked this)).

(** The state that an accepted [revoke] leaves. *)
Definition revoked_record (revokedBy_ : ObjectId) (reason_ details_ : string)
    (now : Date) (this : SignatureRecord) : SignatureRecord :=
  mark_saved (pre_save now (revoking revokedBy_ reason_ details_ now this)).

(** What [verify] and [save] never write: the signed material. *)
Definition same_signed_material (this this' : SignatureRecord) : Prop :=
  document this' = document this
  /\ signer this' = signer this
  /\ digitalSignature this' = digitalSignature this
  /\ documentHash this' = documentHash this
  /\ algorithm this' = algorithm this
  /\ publicKey this' = publicKey this
  /\ certificate this' = certificate this
  /\ timestampToken this' = timestampToken this.

(** [this'] has the history of [this] followed by [vs] and [es]. *)
Definition extends (vs : list Verification) (es : list AuditEntry)
    (this this' : SignatureRecord) : Prop :=
  verifications this' = (verifications this ++ vs)%list
  /\ auditTrail this' = (auditTrail this ++ es)%list
  /\ same_signed_material this this'.

End Virtuals.

(** *** [getStatistics]

    [stats] is what the aggregation returns: one [{ _id, count }] per
    status found. *)

Definition counters : Type := list (string * Z).

(** [result[key]];  [None] is [undefined]. *)
Fixpoint counter (result : counters) (key : string) : option Z :=
  match result with
  | [] => None
  | (k, n) :: rest => if String.eqb k key then Some n else counter rest key
  end.

(** [result[key] = n] *)
Fixpoint assign_counter (result : counters) (key : string) (n : Z) : counters :=
  match result with
  | [] => [(key, n)]
  | (k, m) :: rest =>
      if String.eqb k key then (k, n) :: rest
      else (k, m) :: assign_counter rest key n
  end.

Definition empty_result : counters :=
  [("total", 0%Z); ("valid", 0%Z); ("invalid", 0%Z); ("revoked", 0%Z);
   ("expired", 0%Z); ("pending", 0%Z)].

(** The body of the [forEach]: [result.total += stat.count;
    result[stat._id] = stat.count].  [total] is always there to read
    unless a group of that name replaced it, which keeps it a number. *)
Definition count_group (result : counters) (stat : string * Z) : counters :=
  let total := match counter result "total" with Some t => t | None => 0%Z end in
  assign_counter (assign_counter result "total" (total + snd stat))
    (fst stat) (snd stat).

(** The part of [getStatistics] that follows the aggregation. *)
Definition getStatistics (stats : list (string * Z)) : counters :=
  fold_left count_group stats empty_result.

(** The value of [status] as the database stores it, the [_id] of a
    group. *)
Definition Status_name (s : SignatureModel.Status) : string :=
  match s with
  | SignatureModel.valid => "valid"
  | SignatureModel.invalid => "invalid"
  | SignatureModel.revoked => "revoked"
  | SignatureModel.expired => "expired"
  | SignatureModel.pending_verification => "pending_verification"
  end.

(** The group that the aggregation returns for a status and its
    count. *)
Definition group_of (sc : SignatureModel.Status * Z) : string * Z :=
  (Status_name (fst sc), snd sc).

End SignatureQueries.

(** ** Sample key derivation and further records *)

Module MoreFixtures.
Import Sample Fixtures.

(** A transparent stand-in for PBKDF2. *)
#[export] Instance derivation : KeyDerivation :=
  {| pbkdf2Sync_hex := fun password salt_ _ _ digest =>
                         digest ++ ":" ++ salt_ ++ ":" ++ password |}.

(** A verification entry of a given date and outcome. *)
Definition entry (at_ : Z) (by_ : string) (r : SignatureModel.Result)
  : SignatureModel.Verification :=
  {| SignatureModel.verifiedAt := at_;
     SignatureModel.verifiedBy := by_;
     SignatureModel.result := r;
     SignatureModel.details :=
       {| SignatureModel.signatureValid := true;
          SignatureModel.certificateValid := true;
          SignatureModel.timestampValid := true;
          SignatureModel.documentIntact := true;
          SignatureModel.errors := [] |};
     SignatureModel.method := SignatureModel.automatic |}.

(** The sample expense with another receipt in place of the signed
    one. *)
Definition expense_other_receipt : json :=
  JObj (Set_ (spread expense) "receipts"
          (JArr [JObj [("filename", JStr "other.pdf"); ("size", JNum 99999%Z);
                       ("mimetype", JStr "image/png")]])).

Definition issue_time : string := "2024-01-01T00:00:00.000Z".

(** The string that is hashed for a document, the empty string when
    there is none. *)
Definition signing_string (document : json) : string :=
  match DigitalSignature.documentString document with
  | Returned text => text
  | Thrown _ => EmptyString
  end.

(** An envelope for [document] made outside [signDocument]: the hash
    of its signing string, signed with the key [k1] under the digest
    name [RSA-SHA256]. *)
Definition envelope_of (document : json) : DigitalSignature.SignatureData :=
  let documentHash_ := Sample.hash "sha256" (signing_string document) in
  {| DigitalSignature.digitalSignature :=
       Sample.signature_of "k1" "RSA-SHA256" documentHash_;
     DigitalSignature.documentHash := documentHash_;
     DigitalSignature.algorithm := "RSA-SHA256";
     DigitalSignature.timestamp := issue_time;
     DigitalSignature.signerPublicKey := "PUB k1";
     DigitalSignature.metadata := [] |}.

(** The same envelope under the algorithm name that [signDocument]
    writes. *)
Definition envelope_as_signDocument_names_it (document : json)
  : DigitalSignature.SignatureData :=
  let documentHash_ := Sample.hash "sha256" (signing_string document) in
  {| DigitalSignature.digitalSignature :=
       Sample.signature_of "k1" "RSA-SHA256" documentHash_;
     DigitalSignature.documentHash := documentHash_;
     DigitalSignature.algorithm := "sha256WithRSA";
     DigitalSignature.timestamp := issue_time;
     DigitalSignature.signerPublicKey := "PUB k1";
     DigitalSignature.metadata := [] |}.

(** A store whose write rejects a record whose audit trail has exactly
    one entry, as a write that fails once and succeeds on retry. *)
Definition fails_once : SignatureModel.Store :=
  {| SignatureModel.Expense_findById := fun _ => Returned expense;
     SignatureModel.validate := Sample.validation;
     SignatureModel.write :=
       fun r => if Nat.eqb (List.length (SignatureModel.auditTrail r)) 1
                then Thrown "write conflict" else Returned tt |}.

(** A saved record whose status was set by an approver and not yet
    saved. *)
Definition unsaved_change : SignatureModel.SignatureRecord :=
  SignatureModel.assign_transient (Some "admin") (Some "manual review") None
    (SignatureModel.assign_status SignatureModel.valid
       (record "PUB k1" SignatureModel.pending_verification false None)).

(** The same change with no performer left for the middleware. *)
Definition anonymous_change : SignatureModel.SignatureRecord :=
  SignatureModel.assign_status SignatureModel.valid
    (record "PUB k1" SignatureModel.pending_verification false None).

(** A record verified three times, the second entry being the
    latest. *)
Definition verified_thrice : SignatureModel.SignatureRecord :=
  SignatureQueries.assign_verifications
    [entry 10%Z "u1" SignatureModel.result_valid;
     entry 30%Z "u2" SignatureModel.result_invalid;
     entry 20%Z "u3" SignatureModel.result_valid]
    (record "PUB k1" SignatureModel.valid false None).

End MoreFixtures.

(** * Properties *)

(** ** Sorting keys *)

Module SortFacts.
Import JSString.

Lemma compare_trans_lt a b c :
  String.compare a b = Lt -> String.compare b c = Lt -> String.compare a c = Lt.
Proof.
  revert b c; induction a as [|x a IH]; intros [|y b] [|z c]; simpl; try congruence.
  destruct (Ascii.compare x y) eqn:Hxy; try discriminate.
  - apply Ascii.compare_eq_iff in Hxy; subst y.
    destruct (Ascii.compare x z) eqn:Hxz; try congruence. eauto.
  - intros _. destruct (Ascii.compare y z) eqn:Hyz; try discriminate.
    + apply Ascii.compare_eq_iff in Hyz; subst z. rewrite Hxy; reflexivity.
    + intros _.
      assert (Ascii.compare x z = Lt) as ->; [|reflexivity].
      unfold Ascii.compare in *. rewrite N.compare_lt_iff in *. lia.
Qed.

Lemma leb_trans a b c : le a b -> le b c -> le a c.
Proof.
  unfold le, String.leb.
  destruct (String.compare a b) eqn:Hab; try discriminate; intros _;
    destruct (String.compare b c) eqn:Hbc; try discriminate; intros _.
  - apply String.compare_eq_iff in Hab; subst. now rewrite Hbc.
  - apply String.compare_eq_iff in Hab; subst. now rewrite Hbc.
  - apply String.compare_eq_iff in Hbc; subst. now rewrite Hab.
  - now rewrite (@compare_trans_lt a b c Hab Hbc).
Qed.

Lemma leb_false_le a b : String.leb a b = false -> le b a.
Proof.
  intros H. destruct (String.leb_total a b) as [H'|H']; [congruence|exact H'].
Qed.

Lemma insert_sorted_comm a b l :
  insert_sorted a (insert_sorted b l) = insert_sorted b (insert_sorted a l).
Proof.
  induction l as [|c l IH]; simpl.
  - destruct (String.leb a b) eqn:Hab, (String.leb b a) eqn:Hba; try reflexivity.
    + now rewrite (String.leb_antisym _ _ Hab Hba).
    + apply leb_false_le in Hab. unfold le in Hab. congruence.
  - destruct (String.leb b c) eqn:Hbc, (String.leb a c) eqn:Hac; simpl;
      rewrite ?Hbc, ?Hac.
    + destruct (String.leb a b) eqn:Hab, (String.leb b a) eqn:Hba;
        rewrite ?Hbc, ?Hac; try reflexivity.
      * now rewrite (String.leb_antisym _ _ Hab Hba).
      * apply leb_false_le in Hab. unfold le in Hab. congruence.
    + destruct (String.leb a b) eqn:Hab.
      * pose proof (leb_trans Hab Hbc) as H. unfold le in H. congruence.
      * reflexivity.
    + destruct (String.leb b a) eqn:Hba.
      * pose proof (leb_trans Hba Hac) as H. unfold le in H. congruence.
      * reflexivity.
    + now rewrite IH.
Qed.

Lemma sort_Permutation_eq l l' : Permutation l l' -> sort l = sort l'.
Proof.
  induction 1; simpl.
  - reflexivity.
  - now rewrite IHPermutation.
  - apply insert_sorted_comm.
  - congruence.
Qed.

Lemma insert_sorted_Permutation x l : Permutation (insert_sorted x l) (x :: l).
Proof.
  induction l as [|y l IH]; simpl; [reflexivity|].
  destruct (String.leb x y); [reflexivity|].
  rewrite IH. apply perm_swap.
Qed.

Lemma sort_Permutation l : Permutation (sort l) l.
Proof.
  induction l as [|x l IH]; simpl; [reflexivity|].
  rewrite insert_sorted_Permutation. now rewrite IH.
Qed.

Lemma sort_In x l : In x (sort l) <-> In x l.
Proof.
  split; apply Permutation_in; [|symmetry]; apply sort_Permutation.
Qed.


End SortFacts.

(** ** [JSON.stringify] *)

Section StringifyFacts.
Context {Num : JSNumber}.

Lemma SerializeJSONProperty_object K props :
  SerializeJSONProperty K (JObj props)
  = Some (object_text (flat_map (member_text K props) (property_list K props))).
Proof.
  unfold object_text. simpl. do 4 f_equal.
  apply flat_map_ext. intros P. unfold member_text.
  induction props as [|[k v] ps IH]; simpl; [reflexivity|].
  destruct (String.eqb k P); [|exact IH].
  destruct (SerializeJSONProperty K v); reflexivity.
Qed.

Lemma SerializeJSONProperty_array K elements :
  SerializeJSONProperty K (JArr elements)
  = Some ("[" ++ String.concat ","
                   (map (fun e => match SerializeJSONProperty K e with
                                  | Some strP => strP
                                  | None => "null"
                                  end) elements) ++ "]").
Proof. reflexivity. Qed.

Lemma Get_In props P v : Get props P = Some v -> In (P, v) props.
Proof.
  induction props as [|[k w] ps IH]; simpl; [discriminate|].
  destruct (String.eqb_spec k P) as [->|]; [intros [= ->]; now left|auto].
Qed.

Lemma In_Get props P v :
  NoDup (map fst props) -> In (P, v) props -> Get props P = Some v.
Proof.
  induction props as [|[k w] ps IH]; simpl; [easy|].
  intros Hnd [[= -> ->]|Hin]; inversion_clear Hnd as [|? ? Hk Hps].
  - now rewrite String.eqb_refl.
  - destruct (String.eqb_spec k P) as [->|]; [|auto].
    exfalso. apply Hk. now apply (in_map fst) in Hin.
Qed.

Lemma Get_None props P : Get props P = None <-> ~ In P (map fst props).
Proof.
  induction props as [|[k w] ps IH]; simpl; [tauto|].
  destruct (String.eqb_spec k P) as [->|Hne].
  - split; [discriminate|]. intros H; exfalso; apply H; now left.
  - rewrite IH. tauto.
Qed.

Lemma Get_Permutation props props' P :
  NoDup (map fst props) -> Permutation props props' ->
  Get props' P = Get props P.
Proof.
  intros Hnd Hperm.
  assert (Hnd' : NoDup (map fst props')).
  { eapply Permutation_NoDup; [|exact Hnd]. now apply Permutation_map. }
  destruct (Get props P) as [v|] eqn:Hg.
  - apply In_Get; [exact Hnd'|].
    eapply Permutation_in; [exact Hperm|]. now apply Get_In.
  - apply Get_None. apply Get_None in Hg. intros Hin. apply Hg.
    eapply Permutation_in; [|exact Hin]. symmetry. now apply Permutation_map.
Qed.

Lemma flat_map_ext_In {A B} (f g : A -> list B) l :
  (forall a, In a l -> f a = g a) -> flat_map f l = flat_map g l.
Proof.
  induction l as [|a l IH]; simpl; intros H; [reflexivity|].
  rewrite (H a) by now left. f_equal. apply IH. intros; apply H; now right.
Qed.

Lemma among_In keys k : among keys k = true <-> In k keys.
Proof.
  unfold among. rewrite existsb_exists. split.
  - intros (x & Hx & Heq). apply String.eqb_eq in Heq. now subst.
  - intros H. exists k. split; [exact H|apply String.eqb_refl].
Qed.

Lemma prune_object keep props :
  prune keep (JObj props) = JObj (kept keep props).
Proof.
  simpl. f_equal. unfold kept.
  induction props as [|[k w] ps IH]; simpl; [reflexivity|].
  destruct (keep k); simpl; now rewrite IH.
Qed.

Lemma Get_kept keep props P :
  keep P = true ->
  Get (kept keep props) P = option_map (prune keep) (Get props P).
Proof.
  intros HP. unfold kept.
  induction props as [|[k w] ps IH]; simpl; [reflexivity|].
  destruct (keep k) eqn:Hk; simpl.
  - destruct (String.eqb k P); [reflexivity|exact IH].
  - destruct (String.eqb_spec k P) as [->|]; [congruence|exact IH].
Qed.

(** A replacer array hides whatever [prune] removes. *)
Lemma SerializeJSONProperty_prune K keep :
  (forall P, In P K -> keep P = true) ->
  forall v, SerializeJSONProperty (Some K) (prune keep v)
            = SerializeJSONProperty (Some K) v.
Proof.
  intros Hkeep. induction v as [| | | | |elements IH|props IH] using json_ind;
    try reflexivity.
  - simpl. do 4 f_equal. rewrite map_map. apply map_ext_in.
    intros e He. rewrite Forall_forall in IH. now rewrite IH.
  - rewrite prune_object, !SerializeJSONProperty_object. do 2 f_equal.
    apply flat_map_ext_In. intros P HP. unfold member_text.
    rewrite Get_kept by auto.
    destruct (Get props P) as [w|] eqn:Hg; simpl; [|reflexivity].
    rewrite Forall_forall in IH.
    pose proof (IH (P, w) (Get_In _ _ Hg)) as Hw. simpl in Hw.
    now rewrite Hw.
Qed.
End StringifyFacts.

(** ** Canonicalization *)

Module CanonicalFacts.
Section Facts.
Context {Num : JSNumber} {Platform : Node}.
Import DigitalSignature SortFacts.

Lemma filter_twice {A} (p q : A -> bool) l :
  filter p (filter q l) = filter (fun x => q x && p x) l.
Proof.
  induction l as [|a l IH]; simpl; [reflexivity|].
  destruct (q a); simpl; [destruct (p a)|]; now rewrite IH.
Qed.

Lemma fold_delete fields props :
  fold_left (fun clean field => delete field clean) fields props
  = filter (fun kv => negb (among fields (fst kv))) props.
Proof.
  revert props. induction fields as [|f fs IH]; intros props; simpl.
  - induction props as [|kv l IHl]; simpl; [reflexivity|now rewrite <- IHl].
  - rewrite IH. unfold delete. rewrite filter_twice.
    apply filter_ext. intros [k v]. simpl. unfold among. simpl.
    now rewrite negb_orb.
Qed.

Lemma cleanDocument_filter D :
  cleanDocument D = filter signable (spread D).
Proof. unfold cleanDocument. apply fold_delete. Qed.





(** Objects with the same properties in another order have the same
    text under their sorted keys. *)
Lemma stringify_sorted_Permutation props props' :
  NoDup (map fst props) -> Permutation props props' ->
  JSON_stringify (JObj props') (Some (JSString.sort (map fst props')))
  = JSON_stringify (JObj props) (Some (JSString.sort (map fst props))).
Proof.
  intros Hnd Hperm. unfold JSON_stringify.
  rewrite !SerializeJSONProperty_object. simpl property_list.
  assert (HK : JSString.sort (map fst props') = JSString.sort (map fst props)).
  { apply sort_Permutation_eq. symmetry. now apply Permutation_map. }
  rewrite HK. do 2 f_equal. apply flat_map_ext. intros P.
  unfold member_text. now rewrite (Get_Permutation P Hnd Hperm).
Qed.






End Facts.
End CanonicalFacts.

(** ** The replacer as a whitelist *)

Module WhitelistFacts.
Section Facts.
Context {Num : JSNumber} {Platform : Node}.
Import DigitalSignature SortFacts CanonicalFacts.

Lemma Set__same props f X : Get props f = Some X -> Set_ props f X = props.
Proof.
  induction props as [|[k w] ps IH]; simpl; [discriminate|].
  destruct (String.eqb_spec k f) as [->|]; [now intros [= ->]|].
  intros H. now rewrite IH.
Qed.

Lemma keys_Set_ props f X Y :
  Get props f = Some X -> map fst (Set_ props f Y) = map fst props.
Proof.
  induction props as [|[k w] ps IH]; simpl; [discriminate|].
  destruct (String.eqb_spec k f) as [->|]; [reflexivity|].
  intros H. simpl. now rewrite IH.
Qed.

Lemma kept_Set_congr keep props f Y Y' :
  prune keep Y = prune keep Y' ->
  kept keep (Set_ props f Y) = kept keep (Set_ props f Y').
Proof.
  intros HY. unfold kept.
  induction props as [|[k w] ps IH]; cbn [Set_ filter map fst snd].
  - destruct (keep f); cbn [map fst snd]; now rewrite ?HY.
  - destruct (String.eqb k f); cbn [filter fst].
    + destruct (keep k); cbn [map fst snd]; now rewrite ?HY.
    + destruct (keep k); cbn [map fst snd]; now rewrite IH.
Qed.

Lemma kept_Set_rejected keep inner k v :
  keep k = false -> kept keep (Set_ inner k v) = kept keep inner.
Proof.
  intros Hk. unfold kept.
  induction inner as [|[k' w] ps IH]; cbn [Set_ filter map fst snd].
  - now rewrite Hk.
  - destruct (String.eqb_spec k' k) as [->|]; cbn [filter fst].
    + now rewrite Hk.
    + destruct (keep k'); cbn [map fst snd]; now rewrite IH.
Qed.

Lemma kept_delete_rejected keep inner k :
  keep k = false -> kept keep (delete k inner) = kept keep inner.
Proof.
  intros Hk. unfold kept, delete. rewrite filter_twice. f_equal.
  apply filter_ext. intros [k' w]. cbn [fst].
  destruct (String.eqb_spec k' k) as [->|]; cbn [negb andb]; [now rewrite Hk|reflexivity].
Qed.

Lemma keys_kept keep props :
  (forall k, In k (map fst props) -> keep k = true) ->
  map fst (kept keep props) = map fst props.
Proof.
  unfold kept. induction props as [|[k w] ps IH]; cbn [filter map fst]; [reflexivity|].
  intros H. rewrite (H k) by now left. cbn [map fst]. f_equal.
  apply IH. intros k' Hk'. apply H. now right.
Qed.

Lemma filter_map_same {A} (p : A -> bool) (g : A -> A) l :
  (forall x, p (g x) = p x) -> filter p (map g l) = map g (filter p l).
Proof.
  intros H. induction l as [|a l IH]; simpl; [reflexivity|].
  rewrite H. destruct (p a); simpl; now rewrite IH.
Qed.

Lemma kept_signable keep props :
  filter signable (kept keep props) = kept keep (filter signable props).
Proof.
  unfold kept. rewrite filter_map_same by reflexivity.
  rewrite !filter_twice. f_equal. apply filter_ext.
  intros kv. apply andb_comm.
Qed.

(** Pruning a document to its top-level keys changes neither the
    string that is hashed nor the canonical string. *)
Lemma documentString_prune props :
  documentString (prune (among (map fst props)) (JObj props))
  = documentString (JObj props).
Proof.
  rewrite prune_object. unfold documentString, Object_keys, JSON_stringify.
  cbn [outcome_bind].
  rewrite keys_kept by (intros k Hk; apply among_In; exact Hk).
  rewrite <- prune_object.
  rewrite SerializeJSONProperty_prune; [reflexivity|].
  intros P HP. apply among_In. now rewrite sort_In in HP.
Qed.

Lemma canonicalizeDocument_prune props :
  canonicalizeDocument (prune (among (map fst props)) (JObj props))
  = canonicalizeDocument (JObj props).
Proof.
  rewrite prune_object. unfold canonicalizeDocument, JSON_stringify.
  rewrite !cleanDocument_filter. cbn [spread].
  rewrite kept_signable.
  rewrite keys_kept.
  - rewrite <- prune_object. apply SerializeJSONProperty_prune.
    intros P HP. apply among_In. rewrite sort_In in HP.
    apply in_map_iff in HP as (kv & <- & Hin).
    apply filter_In in Hin as [Hin _]. now apply in_map.
  - intros k Hk. apply among_In.
    apply in_map_iff in Hk as (kv & <- & Hin).
    apply filter_In in Hin as [Hin _]. now apply in_map.
Qed.

Lemma prune_nested_equal props f inner inner' :
  Get props f = Some (JObj inner) ->
  kept (among (map fst props)) inner' = kept (among (map fst props)) inner ->
  prune (among (map fst (Set_ props f (JObj inner'))))
        (JObj (Set_ props f (JObj inner')))
  = prune (among (map fst props)) (JObj props).
Proof.
  intros Hf Hk. rewrite (@keys_Set_ props f (JObj inner) _ Hf).
  transitivity (prune (among (map fst props)) (JObj (Set_ props f (JObj inner)))).
  - rewrite !prune_object. f_equal. apply kept_Set_congr.
    rewrite !prune_object. now f_equal.
  - now rewrite (@Set__same props f _ Hf).
Qed.

(** Setting, in a nested object, a key that is not a top-level key of
    the document leaves the string that is hashed as it is. *)
Lemma documentString_nested_key props f inner k v :
  Get props f = Some (JObj inner) ->
  ~ In k (map fst props) ->
  documentString (JObj (Set_ props f (JObj (Set_ inner k v))))
  = documentString (JObj props).
Proof.
  intros Hf Hk.
  assert (Hrej : among (map fst props) k = false).
  { destruct (among (map fst props) k) eqn:E; [|reflexivity].
    now apply among_In in E. }
  rewrite <- documentString_prune.
  rewrite (@prune_nested_equal props f inner (Set_ inner k v) Hf
             (kept_Set_rejected _ inner k v Hrej)).
  apply documentString_prune.
Qed.

(** C10. The sorted top-level keys act as a whitelist at every depth:
    a document and the document pruned, at every depth, of the keys
    that are not top-level keys have the same canonical string and the
    same string to hash; hence, in a nested object, deleting or
    setting a key that is not a top-level key of the document changes
    neither of them, nor what [signDocument] returns. *)
Theorem replacer_whitelists_nested_keys (props : properties_t) :
  (canonicalizeDocument (prune (among (map fst props)) (JObj props))
     = canonicalizeDocument (JObj props)
   /\ documentString (prune (among (map fst props)) (JObj props))
     = documentString (JObj props))
  /\ forall f inner k,
       Get props f = Some (JObj inner) ->
       ~ In k (map fst props) ->
       forall inner',
         inner' = delete k inner \/ (exists v, inner' = Set_ inner k v) ->
         let D' := JObj (Set_ props f (JObj inner')) in
         canonicalizeDocument D' = canonicalizeDocument (JObj props)
         /\ documentString D' = documentString (JObj props)
         /\ forall privateKey metadata_ now,
              signDocument D' privateKey metadata_ now
              = signDocument (JObj props) privateKey metadata_ now.
Proof.
  split; [split; [apply canonicalizeDocument_prune|apply documentString_prune]|].
  intros f inner k Hf Hk inner' Hinner' D'.
  assert (Hrej : among (map fst props) k = false).
  { destruct (among (map fst props) k) eqn:E; [|reflexivity].
    now apply among_In in E. }
  assert (Hkept : kept (among (map fst props)) inner'
                  = kept (among (map fst props)) inner).
  { destruct Hinner' as [->|[v ->]];
      [now apply kept_delete_rejected|now apply kept_Set_rejected]. }
  pose proof (@prune_nested_equal props f inner inner' Hf Hkept) as Hprune.
  assert (Hdoc : documentString D' = documentString (JObj props)).
  { unfold D'. rewrite <- documentString_prune, Hprune.
    apply documentString_prune. }
  split; [|split].
  - unfold D'. rewrite <- canonicalizeDocument_prune, Hprune.
    apply canonicalizeDocument_prune.
  - exact Hdoc.
  - intros. unfold signDocument. now rewrite Hdoc.
Qed.
End Facts.
End WhitelistFacts.

(** ** Signing, verification and timestamps *)

Module EngineFacts.
Section Facts.
Context {Num : JSNumber} {Platform : Node}.
Import DigitalSignature SortFacts CanonicalFacts.

Lemma documentString_returns D :
  is_document D = true -> exists text, documentString D = Returned text.
Proof.
  destruct D; try discriminate; intros _.
  - eexists; reflexivity.
  - unfold documentString, Object_keys, JSON_stringify. cbn [outcome_bind].
    rewrite SerializeJSONProperty_object. eexists; reflexivity.
Qed.

(** C1, the divergence.  [signDocument] asks [createSign] for the
    digest [sha256WithRSA], and writes that name into the envelope.  On
    a platform that has no digest of that name, as Node has none,
    [signDocument] throws for every document, key and metadata, with
    the platform's message when the document is a string or a mapping;
    and an envelope carrying that algorithm name never verifies: when
    the document hashes to the envelope's hash the result is
    [VERIFICATION_ERROR] with the platform's message.  So there is no
    envelope produced by [signDocument] to verify, and no result with
    [valid = true]. *)
Theorem signDocument_throws_on_its_digest_name
    (D : json) (privateKey : string) (metadata_ : properties_t)
    (now m : string)
    (Hnode : invalid_digest "sha256WithRSA" m) :
  (exists error_message,
      signDocument D privateKey metadata_ now
      = Thrown ("Erro ao assinar documento: " ++ error_message)
      /\ (is_document D = true -> error_message = m))
  /\ (forall sd,
        algorithm sd = "sha256WithRSA" ->
        exists result,
          verifySignature D (Some sd) = Returned result
          /\ valid result = false
          /\ (createDocumentHash D = Returned (documentHash sd) ->
              reason result = Some VERIFICATION_ERROR
              /\ message result = "Erro na verificação: " ++ m)).
Proof.
  destruct Hnode as (Hsign & Hverify & _). split.
  - unfold signDocument.
    change (algorithm_ ++ "WithRSA") with "sha256WithRSA".
    destruct (documentString D) as [text|e] eqn:Htext; cbn [outcome_bind].
    + rewrite Hsign. cbn [outcome_bind try_catch]. exists m. split; reflexivity.
    + cbn [try_catch]. exists e. split; [reflexivity|].
      intros Hdoc. destruct (documentString_returns D Hdoc) as [text Htext'].
      congruence.
  - intros sd Halg. unfold verifySignature, verifySignature_try, createDocumentHash.
    cbn [outcome_bind]. change algorithm_ with "sha256".
    destruct (documentString D) as [text|e]; cbn [outcome_bind try_catch].
    + destruct (String.eqb_spec (createHash_hex "sha256" text) (documentHash sd))
        as [Heq|Hne]; cbn [negb].
      * rewrite Halg, Hverify. cbn [outcome_bind try_catch].
        eexists. split; [reflexivity|]. split; [reflexivity|].
        intros _. split; reflexivity.
      * eexists. split; [reflexivity|]. split; [reflexivity|].
        intros [= H]. contradiction.
    + eexists. split; [reflexivity|]. split; [reflexivity|]. discriminate.
Qed.

(** C2, the divergence.  A document has a nested object under the
    field [f]; after an envelope was made for it, a key [k] of the
    nested object that is not a top-level key of the document is set
    to any value [v].  The changed document hashes to the envelope's
    hash, [verifySignature] returns for it what it returns for the
    signed document, never [DOCUMENT_MODIFIED], and [valid = true]
    whenever the signature verifies: the string that is hashed does not
    contain the nested key. *)
Theorem nested_field_mutation_undetected
    (props : properties_t) (f : string) (inner : properties_t)
    (k : string) (v : json) (sd : SignatureData)
    (Hnested : Get props f = Some (JObj inner))
    (Hkey : ~ In k (map fst props))
    (Hsigned : createDocumentHash (JObj props) = Returned (documentHash sd)) :
  let D' := JObj (Set_ props f (JObj (Set_ inner k v))) in
  createDocumentHash D' = Returned (documentHash sd)
  /\ verifySignature D' (Some sd) = verifySignature (JObj props) (Some sd)
  /\ exists result,
       verifySignature D' (Some sd) = Returned result
       /\ reason result <> Some DOCUMENT_MODIFIED
       /\ (createVerify_base64 (algorithm sd) (documentHash sd)
             (signerPublicKey sd) (digitalSignature sd) = Returned true ->
           valid result = true /\ reason result = None).
Proof.
  intros D'.
  pose proof (@WhitelistFacts.documentString_nested_key _ props f inner k v
                Hnested Hkey) as Hdoc.
  fold D' in Hdoc.
  assert (Hhash : createDocumentHash D' = Returned (documentHash sd)).
  { unfold createDocumentHash in *. now rewrite Hdoc. }
  split; [exact Hhash|].
  assert (Hsame : verifySignature D' (Some sd)
                  = verifySignature (JObj props) (Some sd)).
  { unfold verifySignature, verifySignature_try. cbn [outcome_bind].
    now rewrite Hdoc. }
  split; [exact Hsame|].
  revert Hhash. unfold verifySignature, verifySignature_try, createDocumentHash.
  cbn [outcome_bind]. change algorithm_ with "sha256".
  destruct (documentString D') as [text|e]; cbn [outcome_bind]; [|discriminate].
  intros [= Heq]. rewrite Heq, String.eqb_refl. cbn [negb].
  destruct (createVerify_base64 (algorithm sd) (documentHash sd)
              (signerPublicKey sd) (digitalSignature sd)) as [[|]|e];
    cbn [outcome_bind negb try_catch]; eexists;
    (split; [reflexivity|]); (split; [discriminate|]);
    intros H; try discriminate H. split; reflexivity.
Qed.

(** The hash comparison comes first: when the recomputed hash differs
    from [documentHash], the result is [DOCUMENT_MODIFIED] whatever the
    platform's signature verification would do, throwing included. *)
Lemma verifySignature_modified D sd text :
  documentString D = Returned text ->
  createHash_hex algorithm_ text <> documentHash sd ->
  exists result,
    verifySignature D (Some sd) = Returned result
    /\ valid result = false /\ reason result = Some DOCUMENT_MODIFIED.
Proof.
  intros Htext Hne. unfold verifySignature, verifySignature_try.
  cbn [outcome_bind]. rewrite Htext. cbn [outcome_bind].
  apply String.eqb_neq in Hne. rewrite Hne. cbn [negb try_catch].
  eexists. repeat split.
Qed.

(** An exception of the platform's verification (malformed key,
    undecodable signature, unknown algorithm) is one such case. *)
Lemma verifySignature_crypto_exception D sd text m :
  documentString D = Returned text ->
  createHash_hex algorithm_ text = documentHash sd ->
  createVerify_base64 (algorithm sd) (documentHash sd) (signerPublicKey sd)
    (digitalSignature sd) = Thrown m ->
  verifySignature D (Some sd) = Returned (verifySignature_catch m).
Proof.
  intros Htext Heq Hthrow. unfold verifySignature, verifySignature_try.
  cbn [outcome_bind]. rewrite Htext. cbn [outcome_bind].
  rewrite Heq, String.eqb_refl. cbn [negb]. rewrite Hthrow. reflexivity.
Qed.

(** C4. [verifySignature] never throws: for every document and every
    envelope, missing envelope included, it returns a result; when its
    [try] block throws, with whatever message, the result is
    [{ valid: false, reason: 'VERIFICATION_ERROR', message }] built
    from that message, and otherwise it is what the block returned. *)
Theorem verifySignature_never_throws (D : json) (signatureData : option SignatureData) :
  exists result,
    verifySignature D signatureData = Returned result
    /\ match verifySignature_try D signatureData with
       | Returned r => result = r
       | Thrown error_message =>
           result = verifySignature_catch error_message
           /\ valid result = false
           /\ reason result = Some VERIFICATION_ERROR
           /\ message result = "Erro na verificação: " ++ error_message
       end.
Proof.
  unfold verifySignature.
  destruct (verifySignature_try D signatureData) as [r|m]; cbn [try_catch];
    eexists; split; try reflexivity. repeat split.
Qed.

(** C7, amended.  Canonicalization is idempotent on content:
    canonicalizing the cleaned document (the document without the six
    excluded fields) gives the same string as canonicalizing the
    document, and [canonicalizeDocument] always returns a string.  A
    canonical string handed to the signing path as a raw document is
    used as it is, and so is every string that path computes. *)
Theorem canonicalizeDocument_idempotent_on_content (D : json) :
  canonicalizeDocument (JObj (cleanDocument D)) = canonicalizeDocument D
  /\ match canonicalizeDocument D with
     | Some text => documentString (JStr text) = Returned text
     | None => False
     end.
Proof.
  split.
  - unfold canonicalizeDocument. rewrite !cleanDocument_filter. cbn [spread].
    rewrite <- cleanDocument_filter.
    assert (H : filter signable (cleanDocument D) = cleanDocument D).
    { rewrite cleanDocument_filter, filter_twice. apply filter_ext.
      intros kv. now destruct (signable kv). }
    now rewrite H.
  - unfold canonicalizeDocument, JSON_stringify.
    rewrite SerializeJSONProperty_object. reflexivity.
Qed.

(** C8. For every data string and issue time whose token payloads
    survive their encoding, [generateTimestamp] returns a token that
    [verifyTimestamp] accepts for the same data; and the token in
    which the embedded hash is replaced by a different value is
    rejected, because verification recomputes the hash of the data and
    the embedded timestamp and compares it with the embedded hash. *)
Theorem verifyTimestamp_round_trip (data now hash' : string)
    (Hgenuine : decodes (token_payload now (createHash_hex "sha256" (data ++ now))))
    (Hcorrupt : decodes (token_payload now hash'))
    (Hdiff : hash' <> createHash_hex "sha256" (data ++ now)) :
  (exists issued,
      generateTimestamp data now = Returned issued
      /\ verifyTimestamp (token issued) data = true)
  /\ (exists token',
        encode_token (token_payload now hash') = Returned token'
        /\ verifyTimestamp token' data = false).
Proof.
  unfold decodes in *. split.
  - unfold generateTimestamp.
    destruct (encode_token (token_payload now (createHash_hex "sha256" (data ++ now))))
      as [tok|] eqn:Htok; [|contradiction].
    cbn [outcome_bind try_catch]. eexists. split; [reflexivity|].
    cbn [token]. unfold verifyTimestamp, verifyTimestamp_try.
    rewrite Hgenuine. cbn. now rewrite String.eqb_refl.
  - destruct (encode_token (token_payload now hash')) as [tok|] eqn:Htok;
      [|contradiction].
    exists tok. split; [reflexivity|].
    unfold verifyTimestamp, verifyTimestamp_try.
    rewrite Hcorrupt. cbn.
    apply String.eqb_neq. congruence.
Qed.
End Facts.
End EngineFacts.

(** ** The signature lifecycle *)

Module LifecycleFacts.
Section Facts.
Context {Num : JSNumber} {Platform : Node} {Persistence : SignatureModel.Store}.
Import SignatureModel SignatureQueries.

Lemma status_pre_save now this : status (pre_save now this) = status this.
Proof.
  unfold pre_save. now destruct (status_isModified this && negb (isNew this)).
Qed.

Lemma verifications_pre_save now this :
  verifications (pre_save now this) = verifications this.
Proof.
  unfold pre_save. now destruct (status_isModified this && negb (isNew this)).
Qed.

(** The three ways a [save] ends: validation rejects and nothing is
    touched; the write rejects after the middleware ran; the write is
    accepted. *)
Lemma save_unfold now this :
  save now this
  = match validate this with
    | Thrown m => (Thrown m, this)
    | Returned _ =>
        match write (pre_save now this) with
        | Returned _ => (Returned tt, mark_saved (pre_save now this))
        | Thrown m => (Thrown m, pre_save now this)
        end
    end.
Proof.
  unfold save, bind, update, read, call.
  destruct (validate this) as [[]|]; [|reflexivity].
  destruct (write (pre_save now this)) as [[]|]; reflexivity.
Qed.

(** [save] leaves the status and the verifications as they are,
    whether it is accepted or not. *)
Lemma save_keeps now this :
  status (snd (save now this)) = status this
  /\ verifications (snd (save now this)) = verifications this.
Proof.
  rewrite save_unfold.
  destruct (validate this) as [[]|]; [|split; reflexivity].
  destruct (write (pre_save now this)); cbn [snd mark_saved status verifications];
    now rewrite status_pre_save, verifications_pre_save.
Qed.

Lemma save_accepted now this :
  validate this = Returned tt ->
  write (pre_save now this) = Returned tt ->
  save now this = (Returned tt, mark_saved (pre_save now this)).
Proof. intros Hv Hw. now rewrite save_unfold, Hv, Hw. Qed.

(** When the platform has no digest of the name that [verify] makes of
    [this.algorithm], the [try] block throws before it has written
    anything: the error of the public key when the key does not parse,
    the platform's refusal of the name otherwise. *)
Lemma verify_try_invalid_digest verifiedBy_ method_ now this m :
  invalid_digest (JSString.remove_first "with" (algorithm this)) m ->
  exists error_message,
    verify_try verifiedBy_ method_ now this = (Thrown error_message, this)
    /\ (forall key, createPublicKey (publicKey this) = Returned key ->
                    error_message = m).
Proof.
  intros (_ & _ & Hverify). unfold verify_try, bind, read, call.
  destruct (createPublicKey (publicKey this)) as [key|e].
  - rewrite Hverify. exists m. split; [reflexivity|]. reflexivity.
  - exists e. split; [reflexivity|]. discriminate.
Qed.

(** What [verify] does when its [try] block has thrown before writing
    anything: the [catch] block stages the failure and saves. *)
Lemma verify_caught verifiedBy_ method_ now this error_message :
  verify_try verifiedBy_ method_ now this = (Thrown error_message, this) ->
  verify verifiedBy_ method_ now this
  = match save now (caught verifiedBy_ method_ now error_message this) with
    | (Returned _, after) => (Returned false, after)
    | (Thrown e, after) => (Thrown e, after)
    end.
Proof.
  intros Hthrow. unfold verify, try_. rewrite Hthrow.
  unfold verify_catch, bind, update, ret.
  change (assign_transient _ _ _ _)
    with (caught verifiedBy_ method_ now error_message this).
  destruct (save now (caught verifiedBy_ method_ now error_message this))
    as [[[]|e] after]; reflexivity.
Qed.

(** C3, at the failing input.  On a revoked record, whenever the [try]
    block of [verify] throws (a public key that the platform cannot
    parse, a document that is not found, a rejected write), [verify]
    leaves the status [invalid]: the [catch] branch assigns the status
    without the guard that the [try] branch has. *)
Theorem verify_after_exception_overwrites_revoked
    (this : SignatureRecord) (verifiedBy_ : ObjectId) (method_ : Method)
    (now : Date) (error_message : string)
    (Hrevoked : status this = revoked)
    (Hthrows : fst (verify_try verifiedBy_ method_ now this) = Thrown error_message) :
  status (snd (verify verifiedBy_ method_ now this)) = invalid.
Proof.
  unfold verify, try_.
  destruct (verify_try verifiedBy_ method_ now this) as [[b|m] this1];
    cbn [fst] in Hthrows; [discriminate|].
  unfold verify_catch, bind, update, ret.
  match goal with
  | |- context [save now ?r] =>
      destruct (save_keeps now r) as [Hs _]; destruct (save now r) as [[[]|m'] r']
  end; cbn [snd] in *; rewrite Hs; reflexivity.
Qed.

(** On the path without exception the guard on [pending_verification]
    leaves a settled status alone. *)
Lemma verify_try_keeps_settled_status this verifiedBy_ method_ now :
  status this <> pending_verification ->
  status (snd (verify_try verifiedBy_ method_ now this)) = status this.
Proof.
  intros Hsettled. unfold verify_try, bind, read, call, update, ret.
  destruct (createPublicKey (publicKey this)) as [key|]; [|reflexivity].
  destruct (createVerify_key _ _ key _) as [sv|]; [|reflexivity].
  destruct (Expense_findById (document this)) as [doc|]; [|reflexivity].
  destruct (calculateDocumentHash doc) as [h|]; [|reflexivity].
  cbn [push_verification status].
  assert (Hb : Status_eqb (status this) pending_verification = false)
    by (destruct (status this); try reflexivity; congruence).
  rewrite Hb.
  match goal with
  | |- context [save now ?r] =>
      destruct (save_keeps now r) as [Hs _]; destruct (save now r) as [[[]|m] r']
  end; cbn [snd] in *; rewrite Hs; reflexivity.
Qed.

(** C9, amended.  The model's [verifyTimestamp] returns [true] for
    every record, whatever its token: a non-empty token passes the
    length test and an empty one is taken as absent.  Nothing is
    recomputed or compared. *)
Theorem verifyTimestamp_accepts_every_token (this : SignatureRecord) :
  verifyTimestamp this = true.
Proof.
  unfold verifyTimestamp, truthy.
  destruct (timestampToken this) as [[|c t]|]; reflexivity.
Qed.

(** C5, the divergence.  [verify] asks [createVerify] for the digest
    named by [this.algorithm] without its [with]: [SHA256RSA],
    [SHA256ECDSA] or [SHA512RSA] for the three values that the schema
    allows.  On a platform that has no digest of these names, as Node
    has none, the [try] block of [verify] throws for every such record
    before it has computed or written anything.  So [verify] never
    returns [true]; the one verification entry it appends records the
    four booleans as [false] with the error message, whatever the
    signature, the document, the certificate and the token are; and the
    status it leaves is [invalid], whatever it was.  It returns [false]
    when the save of the [catch] block is accepted. *)
Theorem verify_fails_on_every_record
    (this : SignatureRecord) (verifiedBy_ : ObjectId) (method_ : Method)
    (now : Date) (m : string)
    (Halgorithm : In (algorithm this) algorithm_values)
    (Hnode : forall a, In a algorithm_values ->
                       invalid_digest (JSString.remove_first "with" a) m) :
  exists error_message,
    verify_try verifiedBy_ method_ now this = (Thrown error_message, this)
    /\ (forall key, createPublicKey (publicKey this) = Returned key ->
                    error_message = m)
    /\ fst (verify verifiedBy_ method_ now this) <> Returned true
    /\ verifications (snd (verify verifiedBy_ method_ now this))
       = (verifications this
          ++ [{| verifiedAt := now;
                 verifiedBy := verifiedBy_;
                 result := result_invalid;
                 details := {| signatureValid := false;
                               certificateValid := false;
                               timestampValid := false;
                               documentIntact := false;
                               errors := [error_message] |};
                 method := method_ |}])%list
    /\ status (snd (verify verifiedBy_ method_ now this)) = invalid
    /\ (validate (caught verifiedBy_ method_ now error_message this)
          = Returned tt ->
        write (pre_save now (caught verifiedBy_ method_ now error_message this))
          = Returned tt ->
        fst (verify verifiedBy_ method_ now this) = Returned false).
Proof.
  destruct (verify_try_invalid_digest verifiedBy_ method_ now this
              (Hnode _ Halgorithm)) as (e & Hthrow & Hmessage).
  exists e. split; [exact Hthrow|]. split; [exact Hmessage|].
  rewrite (@verify_caught verifiedBy_ method_ now this e Hthrow).
  set (c := caught verifiedBy_ method_ now e this).
  destruct (save_keeps now c) as [Hstatus Hverifications].
  split; [|split; [|split]].
  - destruct (save now c) as [[[]|e'] after]; discriminate.
  - destruct (save now c) as [[[]|e'] after]; cbn [snd] in *;
      rewrite Hverifications; reflexivity.
  - destruct (save now c) as [[[]|e'] after]; cbn [snd] in *;
      rewrite Hstatus; reflexivity.
  - intros Hv Hw. now rewrite (@save_accepted now c Hv Hw).
Qed.
End Facts.
End LifecycleFacts.

(** ** Runs on the sample platform

    The statements above at concrete inputs, and the inputs at which
    statements of the specification fail. *)

Module Runs.
Import Sample Fixtures MoreFixtures.

(** The sample platform refuses the names it does not know, with
    Node's message. *)
Lemma unknown_digest_is_invalid name :
  known_digest name = false -> invalid_digest name "Invalid digest".
Proof.
  intros H. repeat split; intros; cbn; unfold sign, check, check_key;
    now rewrite H.
Qed.

(** Signing the flight expense throws; the envelope that a signer
    makes for it under the digest name [RSA-SHA256] verifies, and the
    same envelope under the name that [signDocument] writes does
    not. *)
Lemma signDocument_throws_on_its_digest_name_witness :
  invalid_digest "sha256WithRSA" "Invalid digest"
  /\ DigitalSignature.signDocument flight "PRIV k1" [] issue_time
     = Thrown ("Erro ao assinar documento: " ++ "Invalid digest")
  /\ (exists result,
        DigitalSignature.verifySignature flight
          (Some (envelope_as_signDocument_names_it flight)) = Returned result
        /\ DigitalSignature.valid result = false
        /\ DigitalSignature.reason result
           = Some DigitalSignature.VERIFICATION_ERROR)
  /\ (exists result,
        DigitalSignature.verifySignature flight (Some (envelope_of flight))
          = Returned result
        /\ DigitalSignature.valid result = true).
Proof.
  assert (Hnode : invalid_digest "sha256WithRSA" "Invalid digest")
    by (apply unknown_digest_is_invalid; reflexivity).
  destruct (@EngineFacts.signDocument_throws_on_its_digest_name _ _
              flight "PRIV k1" [] issue_time "Invalid digest" Hnode)
    as ((e & Hsign & Hmessage) & Hverify).
  split; [exact Hnode|]. split; [|split].
  - rewrite Hsign, (Hmessage eq_refl). reflexivity.
  - destruct (Hverify (envelope_as_signDocument_names_it flight) eq_refl)
      as (result & Hrun & Hvalid & Hreason).
    exists result. split; [exact Hrun|]. split; [exact Hvalid|].
    apply Hreason. reflexivity.
  - eexists. split; reflexivity.
Defined.

(** An envelope is made for the expense with the amount 120 on its
    receipt; the amount goes to 130, and the envelope verifies for the
    changed expense. *)
Lemma nested_field_mutation_undetected_witness :
  let props := [("title", JStr "Flight");
                ("receipt", JObj [("amount", signed_amount)])] in
  let sd := envelope_of (expense_with_receipt signed_amount) in
  Get props "receipt" = Some (JObj [("amount", signed_amount)])
  /\ ~ In "amount" (map fst props)
  /\ ~ In "receipt" DigitalSignature.excludeFields
  /\ DigitalSignature.createDocumentHash (JObj props)
     = Returned (DigitalSignature.documentHash sd)
  /\ expense_with_receipt changed_amount <> expense_with_receipt signed_amount
  /\ exists result,
       DigitalSignature.verifySignature (expense_with_receipt changed_amount)
         (Some sd) = Returned result
       /\ DigitalSignature.valid result = true
       /\ DigitalSignature.reason result = None.
Proof.
  intros props sd.
  assert (Hf : Get props "receipt" = Some (JObj [("amount", signed_amount)]))
    by reflexivity.
  assert (Hk : ~ In "amount" (map fst props))
    by (cbn; intuition discriminate).
  assert (Hsigned : DigitalSignature.createDocumentHash (JObj props)
                    = Returned (DigitalSignature.documentHash sd))
    by (vm_compute; reflexivity).
  split; [exact Hf|]. split; [exact Hk|].
  split; [cbn; intuition discriminate|].
  split; [exact Hsigned|]. split; [discriminate|].
  destruct (@EngineFacts.nested_field_mutation_undetected _ _ props "receipt"
              [("amount", signed_amount)] "amount" changed_amount sd
              Hf Hk Hsigned) as (_ & _ & result & Hrun & _ & Hvalid).
  exists result. split; [exact Hrun|].
  apply Hvalid. vm_compute. reflexivity.
Defined.


(** The empty document canonicalizes to the two characters of an empty
    object; canonicalizing that string gives an object of two
    index-keyed characters, not the string itself. *)
Lemma canonicalizeDocument_not_idempotent_on_text :
  DigitalSignature.canonicalizeDocument (JObj []) = Some "{}"
  /\ DigitalSignature.canonicalizeDocument (JStr "{}")
     = Some (object_text
               [JSString.QuoteJSONString "0" ++ ":" ++ JSString.QuoteJSONString "{";
                JSString.QuoteJSONString "1" ++ ":" ++ JSString.QuoteJSONString "}"])
  /\ DigitalSignature.canonicalizeDocument (JStr "{}") <> Some "{}".
Proof.
  split; [reflexivity|]. split; [reflexivity|]. vm_compute. discriminate.
Defined.

(** A token issued for an expense is accepted, and the token with the
    hash [tampered] is rejected. *)
Lemma verifyTimestamp_round_trip_witness :
  let data := "expense e1" in
  let now := "2024-01-01T00:00:00.000Z" in
  DigitalSignature.decodes
    (DigitalSignature.token_payload now (createHash_hex "sha256" (data ++ now)))
  /\ DigitalSignature.decodes (DigitalSignature.token_payload now "tampered")
  /\ "tampered" <> createHash_hex "sha256" (data ++ now)
  /\ (exists issued,
        DigitalSignature.generateTimestamp data now = Returned issued
        /\ DigitalSignature.verifyTimestamp (DigitalSignature.token issued) data
           = true)
  /\ (exists token',
        DigitalSignature.encode_token
          (DigitalSignature.token_payload now "tampered") = Returned token'
        /\ DigitalSignature.verifyTimestamp token' data = false).
Proof.
  intros data now.
  assert (H1 : DigitalSignature.decodes
                 (DigitalSignature.token_payload now
                    (createHash_hex "sha256" (data ++ now))))
    by (vm_compute; reflexivity).
  assert (H2 : DigitalSignature.decodes
                 (DigitalSignature.token_payload now "tampered"))
    by (vm_compute; reflexivity).
  assert (H3 : "tampered" <> createHash_hex "sha256" (data ++ now))
    by (vm_compute; discriminate).
  split; [exact H1|]. split; [exact H2|]. split; [exact H3|].
  exact (@EngineFacts.verifyTimestamp_round_trip _ _ data now "tampered" H1 H2 H3).
Defined.

(** [amount] is a key of the receipt only: changing it changes
    neither the canonical string nor the string that is hashed. *)
Lemma replacer_whitelists_nested_keys_witness :
  let props := [("title", JStr "Flight");
                ("receipt", JObj [("amount", signed_amount)])] in
  Get props "receipt" = Some (JObj [("amount", signed_amount)])
  /\ ~ In "amount" (map fst props)
  /\ DigitalSignature.canonicalizeDocument (expense_with_receipt changed_amount)
     = DigitalSignature.canonicalizeDocument (expense_with_receipt signed_amount)
  /\ DigitalSignature.documentString (expense_with_receipt changed_amount)
     = DigitalSignature.documentString (expense_with_receipt signed_amount).
Proof.
  intros props.
  assert (Hf : Get props "receipt" = Some (JObj [("amount", signed_amount)]))
    by reflexivity.
  assert (Hk : ~ In "amount" (map fst props))
    by (cbn; intuition discriminate).
  split; [exact Hf|]. split; [exact Hk|].
  destruct (@WhitelistFacts.replacer_whitelists_nested_keys _ _ props)
    as [_ Hnested].
  destruct (Hnested "receipt" [("amount", signed_amount)] "amount" Hf Hk
              (Set_ [("amount", signed_amount)] "amount" changed_amount)
              (or_intror (ex_intro _ changed_amount eq_refl)))
    as (Hcanonical & Hstring & _).
  split; [exact Hcanonical|exact Hstring].
Defined.

(** A revoked record with an unreadable public key ends [invalid]. *)
Lemma verify_after_exception_overwrites_revoked_witness :
  let this := record "garbage" SignatureModel.revoked false None in
  SignatureModel.status this = SignatureModel.revoked
  /\ fst (SignatureModel.verify_try "admin" SignatureModel.automatic 1000%Z this)
     = Thrown "error:1E08010C:DECODER routines::unsupported"
  /\ SignatureModel.status
       (snd (SignatureModel.verify "admin" SignatureModel.automatic 1000%Z this))
     = SignatureModel.invalid.
Proof.
  intros this.
  split; [reflexivity|]. split; [reflexivity|].
  apply (@LifecycleFacts.verify_after_exception_overwrites_revoked _ _ _ this
           "admin" SignatureModel.automatic 1000%Z
           "error:1E08010C:DECODER routines::unsupported");
    reflexivity.
Defined.

(** A record whose token is the empty string: the token is not null,
    its length is zero, and [verifyTimestamp] returns [true]. *)
Lemma empty_token_is_accepted :
  let this := record "PUB k1" SignatureModel.valid false (Some EmptyString) in
  SignatureModel.timestampToken this = Some EmptyString
  /\ SignatureModel.verifyTimestamp this = true
  /\ ~ (0 < String.length EmptyString).
Proof.
  intros this. split; [reflexivity|]. split; [reflexivity|]. cbn. lia.
Defined.

(** A saved, pending record of the sample expense, rightly signed
    under [RSA-SHA256] and with its expense unchanged: [verify] makes
    the digest name [SHA256RSA] of its algorithm, returns [false] and
    leaves the record [invalid], with one entry of four [false]. *)
Lemma verify_fails_on_every_record_witness :
  let this := record "PUB k1" SignatureModel.pending_verification false None in
  let run := SignatureModel.verify "admin" SignatureModel.automatic 1000%Z this in
  In (SignatureModel.algorithm this) SignatureModel.algorithm_values
  /\ map (JSString.remove_first "with") SignatureModel.algorithm_values
     = ["SHA256RSA"; "SHA256ECDSA"; "SHA512RSA"]
  /\ (forall a, In a SignatureModel.algorithm_values ->
         invalid_digest (JSString.remove_first "with" a) "Invalid digest")
  /\ createVerify_key "RSA-SHA256" (SignatureModel.documentHash this)
       ("k1" : @KeyObject _ platform) (SignatureModel.digitalSignature this)
     = Returned true
  /\ SignatureModel.calculateDocumentHash expense
     = Returned (SignatureModel.documentHash this)
  /\ fst run = Returned false
  /\ SignatureModel.status (snd run) = SignatureModel.invalid
  /\ map (fun v => SignatureModel.details v)
       (SignatureModel.verifications (snd run))
     = [{| SignatureModel.signatureValid := false;
           SignatureModel.certificateValid := false;
           SignatureModel.timestampValid := false;
           SignatureModel.documentIntact := false;
           SignatureModel.errors := ["Invalid digest"] |}].
Proof.
  intros this run.
  assert (Halgorithm : In (SignatureModel.algorithm this)
                         SignatureModel.algorithm_values) by (cbn; auto).
  assert (Hnode : forall a, In a SignatureModel.algorithm_values ->
                    invalid_digest (JSString.remove_first "with" a)
                      "Invalid digest").
  { intros a [<-|[<-|[<-|[]]]]; apply unknown_digest_is_invalid; reflexivity. }
  destruct (@LifecycleFacts.verify_fails_on_every_record _ _ _ this "admin"
              SignatureModel.automatic 1000%Z "Invalid digest"
              Halgorithm Hnode)
    as (e & _ & Hmessage & _ & Hverifications & Hstatus & Hreturns).
  pose proof (Hmessage ("k1" : @KeyObject _ platform) eq_refl) as ->.
  split; [exact Halgorithm|]. split; [reflexivity|]. split; [exact Hnode|].
  split; [vm_compute; reflexivity|]. split; [vm_compute; reflexivity|].
  split; [apply Hreturns; vm_compute; reflexivity|].
  split; [exact Hstatus|].
  unfold run. rewrite Hverifications. reflexivity.
Defined.

End Runs.

(** * Properties of the further code *)

(** ** Signing and verification *)

Module EngineMore.
Section Facts.
Context {Num : JSNumber} {Platform : Node}.
Import DigitalSignature.

Lemma Get_Set__same (props : properties_t) P v : Get (Set_ props P v) P = Some v.
Proof.
  induction props as [|[k w] ps IH]; cbn [Set_ Get].
  - now rewrite String.eqb_refl.
  - destruct (String.eqb k P) eqn:E; cbn [Get]; rewrite E; [reflexivity|exact IH].
Qed.

Lemma Get_Set__other (props : properties_t) P v k :
  k <> P -> Get (Set_ props P v) k = Get props k.
Proof.
  intros Hne. induction props as [|[k' w] ps IH]; cbn [Set_ Get].
  - destruct (String.eqb_spec P k); [congruence|reflexivity].
  - destruct (String.eqb_spec k' P) as [->|]; cbn [Get].
    + destruct (String.eqb_spec P k); [congruence|reflexivity].
    + destruct (String.eqb k' k); [reflexivity|exact IH].
Qed.

(** X2. [signDocument] throws, with the prefix [Erro ao assinar
    documento: ], the message of whatever step fails: the document
    string (a [null] or [undefined] document), the signing, or the
    derivation of the public key, whose message comes with its own
    prefix. *)
Theorem signDocument_failures
    (D : json) (privateKey : string) (metadata_ : properties_t) (now : string) :
  (forall m, documentString D = Thrown m ->
     signDocument D privateKey metadata_ now
     = Thrown ("Erro ao assinar documento: " ++ m))
  /\ (forall text m,
        documentString D = Returned text ->
        createSign_base64 "sha256WithRSA" (createHash_hex "sha256" text) privateKey
          = Thrown m ->
        signDocument D privateKey metadata_ now
        = Thrown ("Erro ao assinar documento: " ++ m))
  /\ (forall text signature_ m,
        documentString D = Returned text ->
        createSign_base64 "sha256WithRSA" (createHash_hex "sha256" text) privateKey
          = Returned signature_ ->
        exportPublicKey privateKey = Thrown m ->
        signDocument D privateKey metadata_ now
        = Thrown ("Erro ao assinar documento: "
                    ++ "Erro ao extrair chave pública: " ++ m))
  /\ (D = JNull \/ D = JUndefined ->
      signDocument D privateKey metadata_ now
      = Thrown ("Erro ao assinar documento: "
                  ++ "Cannot convert undefined or null to object")).
Proof.
  unfold signDocument, extractPublicKeyFromPrivate.
  change (algorithm_ ++ "WithRSA") with "sha256WithRSA".
  change algorithm_ with "sha256".
  repeat split.
  - intros m ->. reflexivity.
  - intros text m -> Hs. cbn [outcome_bind]. now rewrite Hs.
  - intros text sig m -> Hs Hp. cbn [outcome_bind]. rewrite Hs. cbn [outcome_bind].
    now rewrite Hp.
  - intros [-> | ->]; reflexivity.
Qed.

(** X3. The result of [verifySignature] on an envelope is [valid]
    exactly when the document hashes to the envelope's hash and the
    platform accepts the signature under the envelope's own algorithm
    and key; the three reason codes are exactly the cases of a
    different hash, a refused signature and an exception; and [valid]
    holds exactly when there is no reason. *)
Theorem verifySignature_outcomes
    (D : json) (sd : SignatureData) (r : VerifyResult)
    (Hrun : verifySignature D (Some sd) = Returned r) :
  (valid r = true <->
     createDocumentHash D = Returned (documentHash sd)
     /\ createVerify_base64 (algorithm sd) (documentHash sd)
          (signerPublicKey sd) (digitalSignature sd) = Returned true)
  /\ (reason r = Some DOCUMENT_MODIFIED <->
        exists h, createDocumentHash D = Returned h /\ h <> documentHash sd)
  /\ (reason r = Some INVALID_SIGNATURE <->
        createDocumentHash D = Returned (documentHash sd)
        /\ createVerify_base64 (algorithm sd) (documentHash sd)
             (signerPublicKey sd) (digitalSignature sd) = Returned false)
  /\ (reason r = Some VERIFICATION_ERROR <->
        (exists m, createDocumentHash D = Thrown m)
        \/ createDocumentHash D = Returned (documentHash sd)
           /\ exists m, createVerify_base64 (algorithm sd) (documentHash sd)
                          (signerPublicKey sd) (digitalSignature sd) = Thrown m)
  /\ (valid r = true <-> reason r = None).
Proof.
  revert Hrun. unfold verifySignature, verifySignature_try, createDocumentHash.
  cbn [outcome_bind]. change algorithm_ with "sha256".
  destruct (documentString D) as [text|m] eqn:Htext; cbn [outcome_bind try_catch].
  - destruct (String.eqb_spec (createHash_hex "sha256" text) (documentHash sd))
      as [Heq|Hne]; cbn [negb].
    + destruct (createVerify_base64 (algorithm sd) (documentHash sd)
                  (signerPublicKey sd) (digitalSignature sd)) as [[|]|m];
        cbn [outcome_bind negb try_catch]; intros [= <-];
        cbn [valid reason verifySignature_catch]; rewrite Heq;
        repeat split; try tauto; try discriminate;
        try (intros [_ H]; discriminate H);
        try (intros (h & [= <-] & Hh); congruence);
        try (intros [[m' H]|[_ [m' H]]]; discriminate H).
      intros _. right. split; [reflexivity|]. now exists m.
    + intros [= <-]. cbn [valid reason].
      repeat split; try tauto; try discriminate;
        try (intros [[= H] _]; congruence).
      * intros _. eexists. split; [reflexivity|exact Hne].
      * intros [[m' H]|[[= H] _]]; [discriminate H|congruence].
  - intros [= <-]. cbn [valid reason verifySignature_catch].
    repeat split; try tauto; try discriminate;
      try (intros [H _]; discriminate H);
      try (intros (h & H & _); discriminate H).
    intros _. left. now exists m.
Qed.
End Facts.
End EngineMore.

(** ** Timestamps and canonical strings *)

Module CanonicalMore.
Section Facts.
Context {Num : JSNumber} {Platform : Node}.
Import DigitalSignature.

(** X4. A token issued for one data string is rejected for any data
    string that hashes differently with the same timestamp; the
    timestamp that [generateTimestamp] returns is the time of issue. *)
Theorem verifyTimestamp_binds_data (data data' now : string)
    (Hdecodes : decodes (token_payload now (createHash_hex "sha256" (data ++ now))))
    (Hother : createHash_hex "sha256" (data' ++ now)
              <> createHash_hex "sha256" (data ++ now)) :
  exists issued,
    generateTimestamp data now = Returned issued
    /\ ts_timestamp issued = now
    /\ verifyTimestamp (token issued) data' = false.
Proof.
  unfold decodes in Hdecodes. unfold generateTimestamp.
  destruct (encode_token (token_payload now (createHash_hex "sha256" (data ++ now))))
    as [tok|] eqn:Htok; [|contradiction].
  cbn [outcome_bind try_catch]. eexists. split; [reflexivity|].
  split; [reflexivity|]. cbn [token].
  unfold verifyTimestamp, verifyTimestamp_try. rewrite Hdecodes. cbn.
  now apply String.eqb_neq.
Qed.

(** X5. [verifyTimestamp] returns [false] for a token that does not
    parse, for the token of [null] and for an object without [hash];
    when it accepts an object, its [hash] is the string hash of the
    data followed by the string form of its [timestamp] member. *)
Theorem verifyTimestamp_rejects_unreadable (token_ data : string) :
  (forall m, JSON_parse (Buffer_fromBase64 token_) = Thrown m ->
             verifyTimestamp token_ data = false)
  /\ (JSON_parse (Buffer_fromBase64 token_) = Returned JNull ->
      verifyTimestamp token_ data = false)
  /\ (forall payload,
        JSON_parse (Buffer_fromBase64 token_) = Returned (JObj payload) ->
        Get payload "hash" = None ->
        verifyTimestamp token_ data = false)
  /\ (forall payload,
        JSON_parse (Buffer_fromBase64 token_) = Returned (JObj payload) ->
        verifyTimestamp token_ data = true ->
        exists h,
          Get payload "hash" = Some (JStr h)
          /\ h = createHash_hex "sha256"
                   (data ++ ToString match Get payload "timestamp" with
                                     | Some t => t
                                     | None => JUndefined
                                     end)).
Proof.
  unfold verifyTimestamp, verifyTimestamp_try. repeat split.
  - intros m ->. reflexivity.
  - intros ->. reflexivity.
  - intros payload -> Hh. cbn. now rewrite Hh.
  - intros payload ->. cbn.
    destruct (Get payload "hash") as [[| | | |h| |]|]; cbn; try discriminate.
    intros He. apply String.eqb_eq in He. exists h. split; [reflexivity|].
    now symmetry.
Qed.

(** X6. [canonicalizeDocument] always returns a string, and it is the
    string that the signing path hashes for the cleaned document:
    [createDocumentHash] of the document without the excluded fields
    is the hash of the canonical string. *)
Theorem canonical_string_is_signing_string_of_clean_document (D : json) :
  exists text,
    canonicalizeDocument D = Some text
    /\ documentString (JObj (cleanDocument D)) = Returned text
    /\ createDocumentHash (JObj (cleanDocument D))
       = Returned (createHash_hex "sha256" text).
Proof.
  unfold canonicalizeDocument, createDocumentHash, documentString, Object_keys,
    JSON_stringify.
  cbn [outcome_bind]. rewrite SerializeJSONProperty_object.
  eexists. repeat split.
Qed.

(** X7. [canonicalizeDocument] maps [undefined], [null], every
    boolean and every number to the text of the empty object, the same
    as the empty object, the empty array and the empty string. *)
Theorem canonicalizeDocument_of_primitives (D : json)
    (Hprimitive : match D with
                  | JUndefined | JNull | JBool _ | JNum _ => True
                  | _ => False
                  end) :
  canonicalizeDocument D = Some "{}"
  /\ canonicalizeDocument D = canonicalizeDocument (JObj [])
  /\ canonicalizeDocument D = canonicalizeDocument (JArr [])
  /\ canonicalizeDocument D = canonicalizeDocument (JStr EmptyString).
Proof.
  destruct D; try contradiction; repeat split.
Qed.
End Facts.
End CanonicalMore.


(** ** Verification, revocation and saving *)

Module LifecycleMore.
Section Facts.
Context {Num : JSNumber} {Platform : Node} {Persistence : SignatureModel.Store}.
Import SignatureModel SignatureQueries LifecycleFacts.

(** *** How the history grows *)

Lemma extends_refl this : extends [] [] this this.
Proof. unfold extends, same_signed_material. now rewrite !app_nil_r. Qed.

Lemma extends_trans vs es vs' es' a b c :
  extends vs es a b -> extends vs' es' b c ->
  extends (vs ++ vs') (es ++ es') a c.
Proof.
  unfold extends, same_signed_material.
  intros (Hv & He & H1 & H2 & H3 & H4 & H5 & H6 & H7 & H8)
         (Hv' & He' & H1' & H2' & H3' & H4' & H5' & H6' & H7' & H8').
  rewrite Hv', Hv, He', He, !app_assoc. repeat split; congruence.
Qed.

Lemma pre_save_unfold now this :
  pre_save now this
  = if status_isModified this && negb (isNew this)
    then push_audit (audit_entry now this) this else this.
Proof. reflexivity. Qed.

Lemma pre_save_extends now this :
  extends []
    (if status_isModified this && negb (isNew this)
     then [audit_entry now this] else [])
    this (pre_save now this).
Proof.
  rewrite pre_save_unfold.
  destruct (status_isModified this && negb (isNew this)).
  - unfold extends, same_signed_material. cbn. rewrite app_nil_r. repeat split.
  - apply extends_refl.
Qed.

Lemma mark_saved_extends this : extends [] [] this (mark_saved this).
Proof.
  unfold extends, same_signed_material. cbn. rewrite !app_nil_r. repeat split.
Qed.

Lemma revocation_pre_save now this :
  revocation (pre_save now this) = revocation this.
Proof.
  rewrite pre_save_unfold.
  now destruct (status_isModified this && negb (isNew this)).
Qed.

(** Whatever validation and the write answer, [save] appends at most
    one audit entry and nothing else. *)
Lemma save_extends now this :
  exists es,
    (List.length es <= 1)%nat
    /\ extends [] es this (snd (save now this))
    /\ revocation (snd (save now this)) = revocation this.
Proof.
  rewrite save_unfold.
  destruct (validate this) as [[]|e]; cbn [snd].
  - exists (if status_isModified this && negb (isNew this)
            then [audit_entry now this] else []).
    split; [destruct (status_isModified this && negb (isNew this)); cbn; lia|].
    destruct (write (pre_save now this)) as [[]|e]; cbn [snd].
    + split; [|cbn [mark_saved revocation]; apply revocation_pre_save].
      pose proof (extends_trans (pre_save_extends now this)
                    (mark_saved_extends (pre_save now this))) as H.
      cbn [app] in H. rewrite app_nil_r in H. exact H.
    + split; [apply pre_save_extends|apply revocation_pre_save].
  - exists []. split; [cbn; lia|]. split; [apply extends_refl|reflexivity].
Qed.

(** Either the [try] block throws before it has written anything, or
    it reaches [save] in the staged state. *)
Lemma verify_try_cases verifiedBy_ method_ now this :
  (exists e, verify_try verifiedBy_ method_ now this = (Thrown e, this))
  \/ (exists sv di,
        verify_try verifiedBy_ method_ now this
        = match save now (staged verifiedBy_ method_ now sv di this) with
          | (Returned _, after) =>
              (Returned (sv && di && isCertificateValid now this
                         && isTimestampValid this), after)
          | (Thrown e, after) => (Thrown e, after)
          end).
Proof.
  unfold verify_try, bind, read, call.
  destruct (createPublicKey (publicKey this)) as [key|e];
    [|left; exists e; reflexivity].
  destruct (createVerify_key (JSString.remove_first "with" (algorithm this))
              (documentHash this) key (digitalSignature this)) as [sv|e];
    [|left; exists e; reflexivity].
  destruct (Expense_findById (document this)) as [doc|e];
    [|left; exists e; reflexivity].
  destruct (calculateDocumentHash doc) as [h|e];
    [|left; exists e; reflexivity].
  right. exists sv, (String.eqb h (documentHash this)).
  unfold update, ret, staged, isCertificateValid, isTimestampValid, evidence.
  cbn [push_verification status].
  destruct (Status_eqb (status this) pending_verification);
    match goal with
    | |- context [save now ?r] => destruct (save now r) as [[[]|e] after]
    end; reflexivity.
Qed.

Lemma verify_catch_run verifiedBy_ method_ now e this :
  verify_catch verifiedBy_ method_ now e this
  = match save now (caught verifiedBy_ method_ now e this) with
    | (Returned _, after) => (Returned false, after)
    | (Thrown e', after) => (Thrown e', after)
    end.
Proof.
  unfold verify_catch, bind, update, ret.
  change (assign_transient _ _ _ _) with (caught verifiedBy_ method_ now e this).
  destruct (save now (caught verifiedBy_ method_ now e this))
    as [[[]|e'] after]; reflexivity.
Qed.

Lemma staged_extends verifiedBy_ method_ now sv di this :
  extends [evidence verifiedBy_ method_ now sv di
             (isCertificateValid now this) (isTimestampValid this)] []
    this (staged verifiedBy_ method_ now sv di this).
Proof.
  unfold staged, extends, same_signed_material.
  destruct (Status_eqb (status this) pending_verification); cbn;
    rewrite app_nil_r; repeat split.
Qed.

Lemma caught_extends verifiedBy_ method_ now e this :
  extends [failure_evidence verifiedBy_ method_ now e] []
    this (caught verifiedBy_ method_ now e this).
Proof.
  unfold caught, extends, same_signed_material. cbn.
  rewrite app_nil_r. repeat split.
Qed.

Lemma revocation_staged verifiedBy_ method_ now sv di this :
  revocation (staged verifiedBy_ method_ now sv di this) = revocation this.
Proof.
  unfold staged. now destruct (Status_eqb (status this) pending_verification).
Qed.

(** The [catch] block, from any state: one failure entry and at most
    one audit entry. *)
Lemma verify_catch_extends verifiedBy_ method_ now e this :
  exists es,
    (List.length es <= 1)%nat
    /\ extends [failure_evidence verifiedBy_ method_ now e] es this
         (snd (verify_catch verifiedBy_ method_ now e this))
    /\ revocation (snd (verify_catch verifiedBy_ method_ now e this))
       = revocation this.
Proof.
  rewrite verify_catch_run.
  set (c := caught verifiedBy_ method_ now e this).
  destruct (save_extends now c) as (es & Hlen & Hext & Hrev).
  exists es. split; [exact Hlen|].
  pose proof (extends_trans (caught_extends verifiedBy_ method_ now e this) Hext)
    as H.
  destruct (save now c) as [[[]|e'] after]; cbn [snd] in *;
    (split; [exact H|]); rewrite Hrev; reflexivity.
Qed.

(** X9. Whatever the platform and the store do, [verify] only appends:
    the verifications it leaves are the former ones followed by one or
    two new entries, the audit trail is the former one followed by at
    most two entries, and the signed material (document, signer,
    signature, hash, algorithm, key, certificate, token) and the
    revocation data are unchanged. *)
Theorem verify_only_appends
    (verifiedBy_ : ObjectId) (method_ : Method) (now : Date)
    (this : SignatureRecord) :
  exists vs es,
    extends vs es this (snd (verify verifiedBy_ method_ now this))
    /\ (1 <= List.length vs <= 2)%nat
    /\ (List.length es <= 2)%nat
    /\ revocation (snd (verify verifiedBy_ method_ now this)) = revocation this.
Proof.
  unfold verify, try_.
  destruct (verify_try_cases verifiedBy_ method_ now this)
    as [[e Hthrow]|(sv & di & Hrun)].
  - rewrite Hthrow.
    destruct (verify_catch_extends verifiedBy_ method_ now e this)
      as (es & Hlen & Hext & Hrev).
    exists [failure_evidence verifiedBy_ method_ now e], es.
    split; [exact Hext|]. split; [cbn; lia|]. split; [lia|exact Hrev].
  - rewrite Hrun.
    set (s := staged verifiedBy_ method_ now sv di this).
    pose proof (staged_extends verifiedBy_ method_ now sv di this) as Hs.
    pose proof (revocation_staged verifiedBy_ method_ now sv di this) as Hrs.
    fold s in Hs, Hrs.
    destruct (save_extends now s) as (es & Hlen & Hext & Hrev).
    destruct (save now s) as [[[]|e] after]; cbn [snd] in *.
    + eexists _, es. split; [exact (extends_trans Hs Hext)|].
      split; [cbn; lia|]. split; [cbn; lia|congruence].
    + destruct (verify_catch_extends verifiedBy_ method_ now e after)
        as (es' & Hlen' & Hext' & Hrev').
      eexists _, _.
      split; [exact (extends_trans (extends_trans Hs Hext) Hext')|].
      split; [cbn; lia|].
      split; [cbn [app]; rewrite length_app; lia|congruence].
Qed.

(** *** Verification on a platform without the digest *)

Lemma pre_save_caught verifiedBy_ method_ now e this :
  pre_save now (caught verifiedBy_ method_ now e this)
  = let c := caught verifiedBy_ method_ now e this in
    if (status_isModified this || negb (Status_eqb (status this) invalid))
       && negb (isNew this)
    then push_audit {| action := invalidated;
                       performedBy := Some verifiedBy_;
                       audit_timestamp := now;
                       reason := Some "Erro na verificação da assinatura";
                       audit_details := Some (JObj [("error", JStr e)]) |} c
    else c.
Proof. reflexivity. Qed.

(** What a [verify] leaves when its [try] block threw [e] and its
    save was accepted. *)
Lemma failed_state verifiedBy_ method_ now e this :
  let after := failed verifiedBy_ method_ now e this in
  status after = invalid
  /\ verifications after
     = (verifications this ++ [failure_evidence verifiedBy_ method_ now e])%list
  /\ auditTrail after
     = (auditTrail this
        ++ if (status_isModified this || negb (Status_eqb (status this) invalid))
              && negb (isNew this)
           then [{| action := invalidated;
                    performedBy := Some verifiedBy_;
                    audit_timestamp := now;
                    reason := Some "Erro na verificação da assinatura";
                    audit_details := Some (JObj [("error", JStr e)]) |}]
           else [])%list
  /\ revocation after = revocation this
  /\ same_signed_material this after
  /\ status_isModified after = false
  /\ isNew after = false.
Proof.
  unfold failed. rewrite pre_save_caught. cbv zeta.
  destruct ((status_isModified this || negb (Status_eqb (status this) invalid))
            && negb (isNew this));
    unfold same_signed_material; cbn; rewrite ?app_nil_r; repeat split.
Qed.

Lemma verify_failed verifiedBy_ method_ now this m key :
  createPublicKey (publicKey this) = Returned key ->
  invalid_digest (JSString.remove_first "with" (algorithm this)) m ->
  validate (caught verifiedBy_ method_ now m this) = Returned tt ->
  write (pre_save now (caught verifiedBy_ method_ now m this)) = Returned tt ->
  verify verifiedBy_ method_ now this
  = (Returned false, failed verifiedBy_ method_ now m this).
Proof.
  intros Hkey Hdigest Hv Hw.
  destruct (@verify_try_invalid_digest _ _ _ verifiedBy_ method_ now this m Hdigest)
    as (e & Hthrow & Hmessage).
  rewrite (Hmessage key Hkey) in Hthrow.
  rewrite (@verify_caught _ _ _ verifiedBy_ method_ now this m Hthrow).
  now rewrite (@save_accepted _ _ now _ Hv Hw).
Qed.

(** X10. On a platform that has no digest of the name that [verify]
    makes of [this.algorithm], a [verify] whose save is accepted
    returns [false] and leaves the record [invalid], whatever its
    status was: a [valid] record becomes [invalid].  It appends one
    verification entry of four [false] with the platform's message,
    and the audit entry [invalidated] exactly when the record is not
    new and its status changed or had an unsaved change; the [isValid]
    virtual is false afterwards at every time. *)
Theorem verify_invalidates
    (this : SignatureRecord) (verifiedBy_ : ObjectId) (method_ : Method)
    (now : Date) (m : string) (key : KeyObject)
    (Hkey : createPublicKey (publicKey this) = Returned key)
    (Hdigest : invalid_digest (JSString.remove_first "with" (algorithm this)) m)
    (Hvalidated : validate (caught verifiedBy_ method_ now m this) = Returned tt)
    (Hwritten : write (pre_save now (caught verifiedBy_ method_ now m this))
                = Returned tt) :
  let after := snd (verify verifiedBy_ method_ now this) in
  fst (verify verifiedBy_ method_ now this) = Returned false
  /\ status after = invalid
  /\ verifications after
     = (verifications this ++ [failure_evidence verifiedBy_ method_ now m])%list
  /\ auditTrail after
     = (auditTrail this
        ++ if (status_isModified this || negb (Status_eqb (status this) invalid))
              && negb (isNew this)
           then [{| action := invalidated;
                    performedBy := Some verifiedBy_;
                    audit_timestamp := now;
                    reason := Some "Erro na verificação da assinatura";
                    audit_details := Some (JObj [("error", JStr m)]) |}]
           else [])%list
  /\ (forall t, isValid t after = false).
Proof.
  intros after. subst after.
  rewrite (verify_failed verifiedBy_ method_ now this Hkey Hdigest
             Hvalidated Hwritten). cbn [fst snd].
  destruct (failed_state verifiedBy_ method_ now m this)
    as (Hstatus & Hverifications & Haudit & _).
  split; [reflexivity|]. split; [exact Hstatus|].
  split; [exact Hverifications|]. split; [exact Haudit|].
  intros t. unfold isValid. rewrite Hstatus. cbn.
  now destruct (certificate_expired t _).
Qed.

(** X11. On such a platform, verifying twice: both calls return
    [false], each appends its own failure entry, and the second call
    appends no audit entry, the status being [invalid] already. *)
Theorem verify_twice
    (this : SignatureRecord) (verifiedBy_ again_ : ObjectId)
    (method_ method' : Method) (now later : Date) (m : string)
    (key : KeyObject)
    (Hkey : createPublicKey (publicKey this) = Returned key)
    (Hdigest : invalid_digest (JSString.remove_first "with" (algorithm this)) m)
    (Hvalidated : validate (caught verifiedBy_ method_ now m this) = Returned tt)
    (Hwritten : write (pre_save now (caught verifiedBy_ method_ now m this))
                = Returned tt)
    (Hvalidated' :
       validate (caught again_ method' later m
                   (failed verifiedBy_ method_ now m this)) = Returned tt)
    (Hwritten' :
       write (pre_save later
                (caught again_ method' later m
                   (failed verifiedBy_ method_ now m this))) = Returned tt) :
  let first := verify verifiedBy_ method_ now this in
  let second := verify again_ method' later (snd first) in
  fst first = Returned false
  /\ fst second = Returned false
  /\ status (snd second) = invalid
  /\ verifications (snd second)
     = (verifications this
        ++ [failure_evidence verifiedBy_ method_ now m;
            failure_evidence again_ method' later m])%list
  /\ auditTrail (snd second) = auditTrail (snd first).
Proof.
  intros first second. subst second first.
  rewrite (verify_failed verifiedBy_ method_ now this Hkey Hdigest
             Hvalidated Hwritten). cbn [fst snd].
  set (this1 := failed verifiedBy_ method_ now m this) in *.
  destruct (failed_state verifiedBy_ method_ now m this)
    as (Hstatus & Hverifications & _ & _ & Hmaterial & Hmodified & Hnew).
  fold this1 in Hstatus, Hverifications, Hmaterial, Hmodified, Hnew.
  destruct Hmaterial as (_ & _ & _ & _ & Halgorithm & HpublicKey & _).
  assert (Hkey' : createPublicKey (publicKey this1) = Returned key)
    by now rewrite HpublicKey.
  assert (Hdigest' : invalid_digest
                       (JSString.remove_first "with" (algorithm this1)) m)
    by now rewrite Halgorithm.
  rewrite (verify_failed again_ method' later this1 Hkey' Hdigest'
             Hvalidated' Hwritten'). cbn [fst snd].
  destruct (failed_state again_ method' later m this1)
    as (Hstatus' & Hverifications' & Haudit' & _).
  split; [reflexivity|]. split; [reflexivity|]. split; [exact Hstatus'|].
  split.
  - rewrite Hverifications', Hverifications, <- app_assoc. reflexivity.
  - rewrite Haudit', Hmodified, Hstatus. cbn. apply app_nil_r.
Qed.

(** *** Revocation *)

Lemma pre_save_revoking revokedBy_ reason_ details_ now this :
  pre_save now (revoking revokedBy_ reason_ details_ now this)
  = let r := revoking revokedBy_ reason_ details_ now this in
    if (status_isModified this || negb (Status_eqb (status this) revoked))
       && negb (isNew this)
    then push_audit {| action := action_revoked;
                       performedBy := Some revokedBy_;
                       audit_timestamp := now;
                       reason := Some reason_;
                       audit_details := Some (JStr details_) |} r
    else r.
Proof. reflexivity. Qed.

Lemma revoke_unfold revokedBy_ reason_ details_ now this :
  revoke revokedBy_ reason_ details_ now this
  = save now (revoking revokedBy_ reason_ details_ now this).
Proof. reflexivity. Qed.

(** X12. Whether its save is accepted or not, [revoke] leaves the
    status [revoked] and the revocation data of this call, keeps the
    verifications and the signed material, and makes [isValid] false at
    every time.  When validation rejects the record, as it does for a
    reason that the schema does not allow, [revoke] throws and the
    audit trail is as it was; when validation accepts it, the audit
    entry [revoked] is appended exactly when the record is not new and
    its status changed or had an unsaved change, so revoking a saved
    revoked record again appends nothing. *)
Theorem revoke_effect
    (revokedBy_ : ObjectId) (reason_ details_ : string) (now : Date)
    (this : SignatureRecord) :
  let after := snd (revoke revokedBy_ reason_ details_ now this) in
  status after = revoked
  /\ revocation after
     = Some {| revokedAt := now; revokedBy := revokedBy_;
               revocation_reason := reason_; revocation_details := details_ |}
  /\ verifications after = verifications this
  /\ same_signed_material this after
  /\ (forall t, isValid t after = false)
  /\ (forall e,
        validate (revoking revokedBy_ reason_ details_ now this) = Thrown e ->
        fst (revoke revokedBy_ reason_ details_ now this) = Thrown e
        /\ auditTrail after = auditTrail this)
  /\ (validate (revoking revokedBy_ reason_ details_ now this) = Returned tt ->
      auditTrail after
      = (auditTrail this
         ++ if (status_isModified this || negb (Status_eqb (status this) revoked))
               && negb (isNew this)
            then [{| action := action_revoked;
                     performedBy := Some revokedBy_;
                     audit_timestamp := now;
                     reason := Some reason_;
                     audit_details := Some (JStr details_) |}]
            else [])%list).
Proof.
  intros after. subst after. rewrite revoke_unfold.
  set (r := revoking revokedBy_ reason_ details_ now this).
  destruct (save_keeps now r) as [Hstatus Hverifications].
  destruct (save_extends now r) as (es & _ & (_ & _ & Hmaterial) & Hrevocation).
  assert (Hs : status (snd (save now r)) = revoked) by now rewrite Hstatus.
  split; [exact Hs|]. split; [now rewrite Hrevocation|].
  split; [now rewrite Hverifications|]. split.
  { unfold same_signed_material in *. subst r. cbn in Hmaterial. exact Hmaterial. }
  split; [intros t; unfold isValid; now rewrite Hs|].
  rewrite save_unfold. split.
  - intros e ->. split; reflexivity.
  - intros ->. subst r.
    destruct (write _) as [[]|e]; cbn [snd mark_saved auditTrail];
      rewrite pre_save_revoking; cbv zeta;
      destruct ((status_isModified this || negb (Status_eqb (status this) revoked))
                && negb (isNew this)); cbn; now rewrite ?app_nil_r.
Qed.

(** X13. On a platform without the digest, a [verify] after an
    accepted [revoke] returns [false] and leaves the record [invalid],
    not [revoked], with the revocation data still there; the audit
    trail ends with the entry [invalidated]. *)
Theorem verify_after_revoke_invalidates
    (revokedBy_ : ObjectId) (reason_ details_ : string) (now : Date)
    (verifiedBy_ : ObjectId) (method_ : Method) (later : Date)
    (this : SignatureRecord) (m : string) (key : KeyObject)
    (Hkey : createPublicKey (publicKey this) = Returned key)
    (Hdigest : invalid_digest (JSString.remove_first "with" (algorithm this)) m)
    (Hrevoke_validated :
       validate (revoking revokedBy_ reason_ details_ now this) = Returned tt)
    (Hrevoke_written :
       write (pre_save now (revoking revokedBy_ reason_ details_ now this))
       = Returned tt)
    (Hverify_validated :
       validate (caught verifiedBy_ method_ later m
                   (revoked_record revokedBy_ reason_ details_ now this))
       = Returned tt)
    (Hverify_written :
       write (pre_save later
                (caught verifiedBy_ method_ later m
                   (revoked_record revokedBy_ reason_ details_ now this)))
       = Returned tt) :
  let revoked_ := snd (revoke revokedBy_ reason_ details_ now this) in
  let after := snd (verify verifiedBy_ method_ later revoked_) in
  fst (revoke revokedBy_ reason_ details_ now this) = Returned tt
  /\ status revoked_ = revoked
  /\ fst (verify verifiedBy_ method_ later revoked_) = Returned false
  /\ status after = invalid
  /\ revocation after
     = Some {| revokedAt := now; revokedBy := revokedBy_;
               revocation_reason := reason_; revocation_details := details_ |}
  /\ auditTrail after
     = (auditTrail revoked_
        ++ [{| action := invalidated;
               performedBy := Some verifiedBy_;
               audit_timestamp := later;
               reason := Some "Erro na verificação da assinatura";
               audit_details := Some (JObj [("error", JStr m)]) |}])%list.
Proof.
  intros revoked_ after. subst after revoked_.
  rewrite revoke_unfold.
  rewrite (@save_accepted _ _ now _ Hrevoke_validated Hrevoke_written).
  cbn [fst snd].
  change (mark_saved (pre_save now (revoking revokedBy_ reason_ details_ now this)))
    with (revoked_record revokedBy_ reason_ details_ now this) in *.
  set (r := revoked_record revokedBy_ reason_ details_ now this) in *.
  assert (Hstatus : status r = revoked).
  { subst r. unfold revoked_record. cbn [mark_saved status].
    now rewrite status_pre_save. }
  assert (Hrevocation :
            revocation r
            = Some {| revokedAt := now; revokedBy := revokedBy_;
                      revocation_reason := reason_;
                      revocation_details := details_ |}).
  { subst r. unfold revoked_record. cbn [mark_saved revocation].
    now rewrite revocation_pre_save. }
  assert (Hmaterial : publicKey r = publicKey this /\ algorithm r = algorithm this).
  { subst r. unfold revoked_record. cbn [mark_saved publicKey algorithm].
    rewrite pre_save_revoking. cbv zeta.
    destruct ((status_isModified this || negb (Status_eqb (status this) revoked))
              && negb (isNew this)); split; reflexivity. }
  destruct Hmaterial as [HpublicKey Halgorithm].
  assert (Hkey' : createPublicKey (publicKey r) = Returned key)
    by now rewrite HpublicKey.
  assert (Hdigest' : invalid_digest (JSString.remove_first "with" (algorithm r)) m)
    by now rewrite Halgorithm.
  rewrite (verify_failed verifiedBy_ method_ later r Hkey' Hdigest'
             Hverify_validated Hverify_written). cbn [fst snd].
  destruct (failed_state verifiedBy_ method_ later m r)
    as (Hstatus' & _ & Haudit & Hrevocation' & _).
  split; [reflexivity|]. split; [exact Hstatus|]. split; [reflexivity|].
  split; [exact Hstatus'|]. split; [congruence|].
  rewrite Haudit, Hstatus. reflexivity.
Qed.

(** *** Saving *)

(** X16. A save that validation rejects throws and leaves the record
    untouched: the middleware has not run.  A save that the write
    rejects keeps the audit entry that the middleware pushed and the
    unsaved change; if validation accepts the record with that entry,
    the next save pushes a second audit entry for the same change, and
    if it rejects it (an entry without performer), the next save stops
    there.  An accepted save clears the bookkeeping, and a save that
    follows it appends nothing. *)
Theorem save_retry
    (now later : Date) (this : SignatureRecord) :
  (forall e, validate this = Thrown e -> save now this = (Thrown e, this))
  /\ (forall e,
        status_isModified this = true -> isNew this = false ->
        validate this = Returned tt ->
        write (pre_save now this) = Thrown e ->
        let kept_ := push_audit (audit_entry now this) this in
        save now this = (Thrown e, kept_)
        /\ (validate kept_ = Returned tt ->
            auditTrail (snd (save later kept_))
            = (auditTrail this
               ++ [audit_entry now this; audit_entry later this])%list)
        /\ (forall e', validate kept_ = Thrown e' ->
                       save later kept_ = (Thrown e', kept_)))
  /\ (validate this = Returned tt ->
      write (pre_save now this) = Returned tt ->
      save now this = (Returned tt, mark_saved (pre_save now this))
      /\ status_isModified (snd (save now this)) = false
      /\ isNew (snd (save now this)) = false
      /\ auditTrail (snd (save later (snd (save now this))))
         = auditTrail (snd (save now this))).
Proof.
  split; [|split].
  - intros e Hv. now rewrite save_unfold, Hv.
  - intros e Hmod Hold Hv Hw kept_.
    assert (Hpre : pre_save now this = kept_).
    { rewrite pre_save_unfold, Hmod, Hold. reflexivity. }
    split; [|split].
    + now rewrite save_unfold, Hv, Hw, Hpre.
    + intros Hv'. rewrite save_unfold, Hv'.
      assert (Hpre' : pre_save later kept_
                      = push_audit (audit_entry later this) kept_).
      { rewrite pre_save_unfold. subst kept_.
        cbn [push_audit status_isModified isNew]. rewrite Hmod, Hold. reflexivity. }
      destruct (write (pre_save later kept_)) as [[]|];
        cbn [snd mark_saved auditTrail]; rewrite Hpre'; subst kept_;
        cbn [push_audit auditTrail]; now rewrite <- app_assoc.
    + intros e' Hv'. now rewrite save_unfold, Hv'.
  - intros Hv Hw.
    assert (Hs : save now this = (Returned tt, mark_saved (pre_save now this)))
      by now apply save_accepted.
    rewrite Hs. cbn [fst snd].
    split; [reflexivity|]. split; [reflexivity|]. split; [reflexivity|].
    rewrite save_unfold, (pre_save_unfold later).
    cbn [mark_saved status_isModified andb].
    destruct (validate (mark_saved (pre_save now this))) as [[]|];
      [|reflexivity].
    destruct (write (mark_saved (pre_save now this))) as [[]|]; reflexivity.
Qed.
End Facts.
End LifecycleMore.

(** ** Virtuals and statistics *)

Module QueryFacts.
Section Facts.
Context {Num : JSNumber}.
Import SignatureModel SignatureQueries.

(** *** [lastVerification] *)

Lemma insert_latest_first_Permutation x l :
  Permutation (insert_latest_first x l) (x :: l).
Proof.
  induction l as [|y l IH]; cbn [insert_latest_first]; [reflexivity|].
  destruct (Z.leb (verifiedAt y - verifiedAt x) 0); [reflexivity|].
  rewrite IH. apply perm_swap.
Qed.

Lemma sort_latest_first_Permutation l : Permutation (sort_latest_first l) l.
Proof.
  induction l as [|x l IH]; cbn [sort_latest_first]; [reflexivity|].
  rewrite insert_latest_first_Permutation. now rewrite IH.
Qed.

Lemma insert_latest_first_sorted x l :
  StronglySorted not_earlier l ->
  StronglySorted not_earlier (insert_latest_first x l).
Proof.
  induction 1 as [|y l Hs IH Hall]; cbn [insert_latest_first].
  - repeat constructor.
  - destruct (Z.leb_spec (verifiedAt y - verifiedAt x) 0) as [Hle|Hgt].
    + constructor; [now constructor|].
      constructor; [unfold not_earlier; lia|].
      eapply Forall_impl; [|exact Hall]. unfold not_earlier. intros z. lia.
    + constructor; [exact IH|].
      rewrite Forall_forall. intros z Hz.
      apply (Permutation_in _ (insert_latest_first_Permutation x l)) in Hz.
      destruct Hz as [<-|Hz]; [unfold not_earlier; lia|].
      rewrite Forall_forall in Hall. auto.
Qed.

Lemma sort_latest_first_sorted l : StronglySorted not_earlier (sort_latest_first l).
Proof.
  induction l; cbn [sort_latest_first];
    [constructor|now apply insert_latest_first_sorted].
Qed.

(** X17. [lastVerification] is [null] exactly when there is no
    verification; otherwise it returns an entry of the record that no
    entry is later than.  Reading it reorders [this.verifications],
    latest first, keeping the same entries; status and audit trail are
    untouched, and reading it again gives the same answer and order. *)
Theorem lastVerification_latest_and_reorders (this : SignatureRecord) :
  let answer := fst (lastVerification this) in
  let after := snd (lastVerification this) in
  (answer = None <-> verifications this = [])
  /\ (forall v, answer = Some v ->
        In v (verifications this)
        /\ forall w, In w (verifications this) ->
                     (verifiedAt w <= verifiedAt v)%Z)
  /\ Permutation (verifications after) (verifications this)
  /\ StronglySorted not_earlier (verifications after)
  /\ answer = hd_error (verifications after)
  /\ status after = status this
  /\ auditTrail after = auditTrail this
  /\ lastVerification after = (answer, after).
Proof.
  intros answer after. subst answer after. unfold lastVerification.
  destruct (verifications this) as [|x l] eqn:Hv.
  - cbn [fst snd]. rewrite Hv.
    repeat split; try discriminate; try constructor; try reflexivity.
  - remember (sort_latest_first (x :: l)) as sorted eqn:Hdef.
    cbn [fst snd assign_verifications verifications status auditTrail].
    assert (Hperm : Permutation sorted (x :: l))
      by (subst sorted; apply sort_latest_first_Permutation).
    assert (Hsorted : StronglySorted not_earlier sorted)
      by (subst sorted; apply sort_latest_first_sorted).
    clear Hdef.
    assert (Hfix : sort_latest_first sorted = sorted).
    { clear Hperm. induction Hsorted as [|y s Hs IH Hall]; [reflexivity|].
      cbn [sort_latest_first]. rewrite IH.
      destruct s as [|z s']; [reflexivity|]. cbn [insert_latest_first].
      inversion_clear Hall as [|? ? Hz _]. unfold not_earlier in Hz.
      destruct (Z.leb_spec (verifiedAt z - verifiedAt y) 0); [reflexivity|lia]. }
    split; [|split; [|split; [|split; [|split; [|split; [|split]]]]]];
      try reflexivity; try assumption.
    + split; [|discriminate]. intros Hnone.
      destruct sorted as [|y s]; [|discriminate].
      apply Permutation_nil in Hperm. discriminate.
    + intros v Hhd. destruct sorted as [|y s]; [discriminate|].
      injection Hhd as ->.
      split; [apply (Permutation_in _ Hperm); now left|].
      intros w Hw. apply (Permutation_in _ (Permutation_sym Hperm)) in Hw.
      destruct Hw as [<-|Hw]; [lia|].
      inversion_clear Hsorted as [|? ? _ Hall].
      rewrite Forall_forall in Hall. exact (Hall w Hw).
    + destruct sorted as [|y s].
      * apply Permutation_nil in Hperm. discriminate.
      * rewrite Hfix. reflexivity.
Qed.
End Facts.

(** *** [getStatistics] *)

Import SignatureQueries.

Lemma counter_assign_same result key n :
  counter (assign_counter result key n) key = Some n.
Proof.
  induction result as [|[k m] rest IH]; cbn [assign_counter counter].
  - now rewrite String.eqb_refl.
  - destruct (String.eqb k key) eqn:E; cbn [counter]; rewrite E;
      [reflexivity|exact IH].
Qed.

Lemma counter_assign_other result key n key' :
  key' <> key -> counter (assign_counter result key n) key' = counter result key'.
Proof.
  intros Hne. induction result as [|[k m] rest IH]; cbn [assign_counter counter].
  - destruct (String.eqb_spec key key'); [congruence|reflexivity].
  - destruct (String.eqb_spec k key) as [->|]; cbn [counter].
    + destruct (String.eqb_spec key key'); [congruence|reflexivity].
    + destruct (String.eqb k key'); [reflexivity|exact IH].
Qed.

Lemma Status_name_injective a b : Status_name a = Status_name b -> a = b.
Proof. destruct a, b; cbn; intros H; try reflexivity; discriminate H. Qed.

Lemma Status_name_not_total s : Status_name s <> "total".
Proof. destruct s; discriminate. Qed.

Lemma fold_count_total groups acc t :
  counter acc "total" = Some t ->
  counter (fold_left count_group (map group_of groups) acc) "total"
  = Some (t + fold_right (fun sc n => snd sc + n) 0 groups)%Z.
Proof.
  revert acc t. induction groups as [|[s c] rest IH]; intros acc t Ht;
    cbn [map fold_left fold_right snd].
  - rewrite Ht. f_equal. lia.
  - rewrite (IH _ (t + c)%Z).
    + f_equal. lia.
    + unfold count_group. cbn [group_of fst snd]. rewrite Ht.
      rewrite counter_assign_other by (intros H; symmetry in H;
                                       now apply Status_name_not_total in H).
      apply counter_assign_same.
Qed.

Lemma fold_count_untouched groups acc key :
  key <> "total" ->
  (forall sc, In sc groups -> Status_name (fst sc) <> key) ->
  counter (fold_left count_group (map group_of groups) acc) key = counter acc key.
Proof.
  intros Hkey. revert acc.
  induction groups as [|[s c] rest IH]; intros acc Hnot; cbn [map fold_left];
    [reflexivity|].
  rewrite IH by (intros sc Hin; apply Hnot; now right).
  unfold count_group. cbn [fst snd].
  rewrite counter_assign_other
    by (intros H; symmetry in H; exact (Hnot (s, c) (or_introl eq_refl) H)).
  now apply counter_assign_other.
Qed.

Lemma fold_count_group groups acc s c :
  NoDup (map fst groups) -> In (s, c) groups ->
  counter (fold_left count_group (map group_of groups) acc) (Status_name s)
  = Some c.
Proof.
  revert acc. induction groups as [|[s' c'] rest IH]; intros acc Hnd Hin;
    [contradiction|].
  cbn [map fst] in Hnd. inversion_clear Hnd as [|? ? Hfresh Hrest].
  cbn [map fold_left]. destruct Hin as [[= -> ->]|Hin].
  - rewrite fold_count_untouched.
    + unfold count_group. cbn [group_of fst snd]. apply counter_assign_same.
    + apply Status_name_not_total.
    + intros [s'' c''] Hin' Heq. cbn [fst] in Heq.
      apply Status_name_injective in Heq. subst s''.
      apply Hfresh. now apply (in_map fst) in Hin'.
  - now apply IH.
Qed.

(** X18. For groups of distinct statuses, [getStatistics] returns
    [total] as the sum of the counts and each status under its own
    name.  [pending] stays 0: the count of [pending_verification]
    records goes under [pending_verification], which is absent when
    there is no such record, while the other absent statuses read 0. *)
Theorem getStatistics_counts (groups : list (SignatureModel.Status * Z))
    (Hdistinct : NoDup (map fst groups)) :
  let result := getStatistics (map group_of groups) in
  counter result "total"
  = Some (fold_right (fun sc n => snd sc + n)%Z 0%Z groups)
  /\ (forall s c, In (s, c) groups -> counter result (Status_name s) = Some c)
  /\ counter result "pending" = Some 0%Z
  /\ (forall s, ~ In s (map fst groups) ->
        counter result (Status_name s)
        = match s with
          | SignatureModel.pending_verification => None
          | _ => Some 0%Z
          end).
Proof.
  intros result. subst result. unfold getStatistics. repeat split.
  - now rewrite (fold_count_total groups empty_result (t := 0%Z)).
  - intros s c Hin. now apply fold_count_group.
  - rewrite fold_count_untouched; [reflexivity|discriminate|].
    intros [s c] _. destruct s; discriminate.
  - intros s Hs. rewrite fold_count_untouched.
    + destruct s; reflexivity.
    + apply Status_name_not_total.
    + intros [s' c'] Hin Heq. cbn [fst] in Heq.
      apply Status_name_injective in Heq. subst s'.
      apply Hs. now apply (in_map fst) in Hin.
Qed.
End QueryFacts.

(** ** The document hash of the model, and passwords *)

Module DocumentHashFacts.
Section Facts.
Context {Num : JSNumber} {Platform : Node}.
Import SignatureModel SignatureQueries.

Lemma flat_map_nil {A B} (f : A -> list B) l :
  (forall a, In a l -> f a = []) -> flat_map f l = [].
Proof.
  induction l as [|a l IH]; cbn [flat_map]; intros H; [reflexivity|].
  rewrite (H a) by now left. apply IH. intros; apply H; now right.
Qed.

Lemma among_false keys k : among keys k = false -> ~ In k keys.
Proof. intros H Hin. apply among_In in Hin. congruence. Qed.

(** Under a replacer array that holds none of its keys, a receipt is
    an empty object. *)
Lemma receipt_text K a b c :
  among K "filename" = false -> among K "size" = false ->
  among K "mimetype" = false ->
  SerializeJSONProperty (Some K)
    (JObj [("filename", a); ("size", b); ("mimetype", c)]) = Some "{}".
Proof.
  intros Hf Hs Hm. rewrite SerializeJSONProperty_object. cbn [property_list].
  rewrite flat_map_nil; [reflexivity|].
  intros P HP. unfold member_text. cbn [Get].
  destruct (String.eqb_spec "filename" P) as [<-|];
    [now apply among_false in Hf|].
  destruct (String.eqb_spec "size" P) as [<-|];
    [now apply among_false in Hs|].
  destruct (String.eqb_spec "mimetype" P) as [<-|];
    [now apply among_false in Hm|].
  reflexivity.
Qed.

Lemma receipts_view rs :
  (forall r, In r rs -> r <> JNull /\ r <> JUndefined) ->
  exists out,
    map_outcome receipt_view rs = Returned out
    /\ List.length out = List.length rs
    /\ Forall (fun o => exists a b c,
                 o = JObj [("filename", a); ("size", b); ("mimetype", c)]) out.
Proof.
  induction rs as [|r rs IH]; intros Hpresent.
  - exists []. repeat split. constructor.
  - destruct IH as (out & Hout & Hlen & Hshape);
      [intros r' Hr'; apply Hpresent; now right|].
    destruct (Hpresent r (or_introl eq_refl)) as [Hn Hu].
    cbn [map_outcome]. rewrite Hout.
    destruct r; try congruence; cbn;
      (eexists; split; [reflexivity|]; split; [cbn; now rewrite Hlen|]);
      constructor; try assumption; eauto.
Qed.

Lemma receipts_text K out :
  among K "filename" = false -> among K "size" = false ->
  among K "mimetype" = false ->
  Forall (fun o => exists a b c,
            o = JObj [("filename", a); ("size", b); ("mimetype", c)]) out ->
  SerializeJSONProperty (Some K) (JArr out)
  = Some ("[" ++ String.concat "," (repeat "{}" (List.length out)) ++ "]").
Proof.
  intros Hf Hs Hm Hshape. rewrite SerializeJSONProperty_array. do 4 f_equal.
  induction Hshape as [|o out (a & b & c & ->) _ IH]; [reflexivity|].
  cbn [map List.length repeat]. rewrite receipt_text by assumption. now rewrite IH.
Qed.

Lemma Get_app_last (base : properties_t) k X P :
  Get (base ++ [(k, X)])%list P
  = match Get base P with
    | Some v => Some v
    | None => if String.eqb k P then Some X else None
    end.
Proof.
  induction base as [|[k' w] rest IH]; cbn [app Get]; [reflexivity|].
  destruct (String.eqb k' P); [reflexivity|exact IH].
Qed.

(** X19. [calculateDocumentHash] returns a hash for every expense
    object whose receipts are present, and the hash depends on the
    receipts only through their number: replacing the receipts by as
    many others, of whatever file name, size and type, gives the same
    hash. *)
Theorem calculateDocumentHash_ignores_receipt_content
    (props : properties_t) (rs rs' : list json)
    (Hreceipts : Get props "receipts" = Some (JArr rs))
    (Hcount : List.length rs' = List.length rs)
    (Hpresent : forall r, In r rs -> r <> JNull /\ r <> JUndefined)
    (Hpresent' : forall r, In r rs' -> r <> JNull /\ r <> JUndefined) :
  (exists h, calculateDocumentHash (JObj props) = Returned h)
  /\ calculateDocumentHash (JObj (Set_ props "receipts" (JArr rs')))
     = calculateDocumentHash (JObj props).
Proof.
  destruct (receipts_view rs Hpresent) as (out & Hout & Hlen & Hshape).
  destruct (receipts_view rs' Hpresent') as (out' & Hout' & Hlen' & Hshape').
  unfold calculateDocumentHash. cbn [member outcome_bind].
  rewrite (@EngineMore.Get_Set__other _ props "receipts" (JArr rs') "title"),
    (@EngineMore.Get_Set__other _ props "receipts" (JArr rs') "description"),
    (@EngineMore.Get_Set__other _ props "receipts" (JArr rs') "amount"),
    (@EngineMore.Get_Set__other _ props "receipts" (JArr rs') "currency"),
    (@EngineMore.Get_Set__other _ props "receipts" (JArr rs') "category"),
    (@EngineMore.Get_Set__other _ props "receipts" (JArr rs') "expenseDate"),
    (@EngineMore.Get_Set__other _ props "receipts" (JArr rs') "employee")
    by discriminate.
  rewrite EngineMore.Get_Set__same, Hreceipts.
  change (fun r : json => _) with receipt_view.
  rewrite Hout, Hout'. cbn [outcome_bind Object_keys map fst].
  set (K := JSString.sort _).
  assert (Hf : among K "filename" = false) by (vm_compute; reflexivity).
  assert (Hs : among K "size" = false) by (vm_compute; reflexivity).
  assert (Hm : among K "mimetype" = false) by (vm_compute; reflexivity).
  unfold JSON_stringify. rewrite !SerializeJSONProperty_object.
  split; [eexists; reflexivity|].
  do 3 f_equal. cbn [property_list]. apply flat_map_ext. intros P.
  unfold member_text.
  match goal with
  | |- context [Get (?a :: ?b :: ?c :: ?d :: ?e :: ?f :: ?g :: [("receipts", JArr out')]) P] =>
      change (a :: b :: c :: d :: e :: f :: g :: [("receipts", JArr out')])
        with ([a; b; c; d; e; f; g] ++ [("receipts", JArr out')])%list;
      change (a :: b :: c :: d :: e :: f :: g :: [("receipts", JArr out)])
        with ([a; b; c; d; e; f; g] ++ [("receipts", JArr out)])%list
  end.
  rewrite !Get_app_last.
  match goal with |- context [Get ?base P] => destruct (Get base P) end;
    [reflexivity|].
  destruct (String.eqb "receipts" P); [|reflexivity].
  rewrite !receipts_text by assumption. now rewrite Hlen, Hlen', Hcount.
Qed.
End Facts.
End DocumentHashFacts.

Module PasswordFacts.
Section Facts.
Context {KDF : KeyDerivation}.
Import Passwords.

(** X8. The password hashed by [hashPassword] verifies with the
    returned hash and salt.  The salt used is the given one unless it
    is [null] or empty, in which case it is the random one; hashing
    again with the returned salt gives the same record; and an attempt
    verifies exactly when it derives the same key. *)
Theorem hashPassword_round_trip (password : string) (salt_ : option string)
    (random : string) :
  let stored := hashPassword password salt_ random in
  verifyPassword password (hash stored) (salt stored) = true
  /\ salt stored
     = match salt_ with
       | Some s => if String.eqb s EmptyString then random else s
       | None => random
       end
  /\ hashPassword password (Some EmptyString) random
     = hashPassword password None random
  /\ (salt stored <> EmptyString ->
      forall random', hashPassword password (Some (salt stored)) random' = stored)
  /\ (forall attempt,
        verifyPassword attempt (hash stored) (salt stored) = true <->
        pbkdf2Sync_hex attempt (salt stored) 100000%Z 64%Z "sha512"
        = pbkdf2Sync_hex password (salt stored) 100000%Z 64%Z "sha512").
Proof.
  intros stored. subst stored. unfold hashPassword, verifyPassword.
  cbn [hash salt]. repeat split.
  - apply String.eqb_refl.
  - intros Hne random'. unfold saltBytes at 1 3.
    apply String.eqb_neq in Hne. now rewrite Hne.
  - apply String.eqb_eq.
  - apply String.eqb_eq.
Qed.
End Facts.
End PasswordFacts.

(** ** Further runs on the sample platform *)

Module MoreRuns.
Import Sample Fixtures MoreFixtures.

(** A [null] document, and the flight expense, whose signing the
    platform refuses. *)
Lemma signDocument_failures_witness :
  DigitalSignature.signDocument JNull "PRIV k1" [] issue_time
  = Thrown ("Erro ao assinar documento: "
              ++ "Cannot convert undefined or null to object")
  /\ DigitalSignature.signDocument flight "PRIV k1" [] issue_time
     = Thrown ("Erro ao assinar documento: " ++ "Invalid digest").
Proof.
  destruct (@EngineMore.signDocument_failures _ _ JNull "PRIV k1" [] issue_time)
    as (_ & _ & _ & Hnull).
  destruct (@EngineMore.signDocument_failures _ _ flight "PRIV k1" [] issue_time)
    as (_ & Hsign & _).
  split; [apply Hnull; now left|].
  eapply Hsign; reflexivity.
Defined.

(** The envelope made for the flight under [RSA-SHA256] verifies for
    the flight. *)
Lemma verifySignature_outcomes_witness :
  exists r,
    DigitalSignature.verifySignature flight (Some (envelope_of flight))
      = Returned r
    /\ DigitalSignature.valid r = true
    /\ DigitalSignature.reason r = None
    /\ DigitalSignature.createDocumentHash flight
       = Returned (DigitalSignature.documentHash (envelope_of flight)).
Proof.
  eexists. split; [reflexivity|].
  lazymatch goal with
  | |- DigitalSignature.valid ?r = true /\ _ =>
      destruct (@EngineMore.verifySignature_outcomes integers platform flight
                  (envelope_of flight)
                  r eq_refl) as (Hvalid & _ & _ & _ & Hreason)
  end.
  split; [reflexivity|]. split; [apply Hreason; reflexivity|].
  apply Hvalid. reflexivity.
Defined.

(** A token for one expense is refused for another. *)
Lemma verifyTimestamp_binds_data_witness :
  DigitalSignature.decodes
    (DigitalSignature.token_payload issue_time
       (createHash_hex "sha256" ("expense e1" ++ issue_time)))
  /\ createHash_hex "sha256" ("expense e2" ++ issue_time)
     <> createHash_hex "sha256" ("expense e1" ++ issue_time)
  /\ exists issued,
       DigitalSignature.generateTimestamp "expense e1" issue_time = Returned issued
       /\ DigitalSignature.ts_timestamp issued = issue_time
       /\ DigitalSignature.verifyTimestamp (DigitalSignature.token issued)
            "expense e2" = false.
Proof.
  assert (H1 : DigitalSignature.decodes
                 (DigitalSignature.token_payload issue_time
                    (createHash_hex "sha256" ("expense e1" ++ issue_time))))
    by (vm_compute; reflexivity).
  assert (H2 : createHash_hex "sha256" ("expense e2" ++ issue_time)
               <> createHash_hex "sha256" ("expense e1" ++ issue_time))
    by (vm_compute; discriminate).
  split; [exact H1|]. split; [exact H2|].
  exact (@CanonicalMore.verifyTimestamp_binds_data _ _ "expense e1" "expense e2"
           issue_time H1 H2).
Defined.

(** The token of [null], and a token that is no base64 of JSON. *)
Lemma verifyTimestamp_rejects_unreadable_witness :
  JSON_parse (Buffer_fromBase64 (toBase64 "null")) = Returned JNull
  /\ DigitalSignature.verifyTimestamp (toBase64 "null") "expense e1" = false
  /\ JSON_parse (Buffer_fromBase64 "not a token") = Thrown "Unexpected token in JSON"
  /\ DigitalSignature.verifyTimestamp "not a token" "expense e1" = false.
Proof.
  assert (H1 : JSON_parse (Buffer_fromBase64 (toBase64 "null")) = Returned JNull)
    by (vm_compute; reflexivity).
  assert (H2 : JSON_parse (Buffer_fromBase64 "not a token")
               = Thrown "Unexpected token in JSON") by (vm_compute; reflexivity).
  destruct (@CanonicalMore.verifyTimestamp_rejects_unreadable _ _
              (toBase64 "null") "expense e1") as (_ & Hnull & _).
  destruct (@CanonicalMore.verifyTimestamp_rejects_unreadable _ _
              "not a token" "expense e1") as (Hthrown & _).
  split; [exact H1|]. split; [exact (Hnull H1)|].
  split; [exact H2|exact (Hthrown _ H2)].
Defined.

(** [null] canonicalizes as the empty object. *)
Lemma canonicalizeDocument_of_primitives_witness :
  DigitalSignature.canonicalizeDocument JNull = Some "{}"
  /\ DigitalSignature.canonicalizeDocument JNull
     = DigitalSignature.canonicalizeDocument (JObj []).
Proof.
  destruct (@CanonicalMore.canonicalizeDocument_of_primitives _ JNull I)
    as (H1 & H2 & _).
  split; assumption.
Defined.

(** An empty salt is replaced by the random one, and the stored pair
    verifies. *)
Lemma hashPassword_round_trip_witness :
  let stored := Passwords.hashPassword "secret" (Some EmptyString) "r4nd0m" in
  Passwords.salt stored = "r4nd0m"
  /\ Passwords.salt stored <> EmptyString
  /\ Passwords.verifyPassword "secret" (Passwords.hash stored)
       (Passwords.salt stored) = true
  /\ Passwords.hashPassword "secret" (Some (Passwords.salt stored)) "other"
     = stored.
Proof.
  intros stored.
  destruct (@PasswordFacts.hashPassword_round_trip _ "secret"
              (Some EmptyString) "r4nd0m")
    as (Hverifies & Hsalt & _ & Hagain & _).
  assert (Hne : Passwords.salt stored <> EmptyString) by (vm_compute; discriminate).
  split; [exact Hsalt|]. split; [exact Hne|]. split; [exact Hverifies|].
  exact (Hagain Hne "other").
Defined.

(** A saved [valid] record of the sample expense, rightly signed, is
    verified: the answer is [false], the record is [invalid] and the
    audit trail has the entry [invalidated]. *)
Lemma verify_invalidates_witness :
  let this := record "PUB k1" SignatureModel.valid false None in
  let run := SignatureModel.verify "admin" SignatureModel.manual 1000%Z this in
  createPublicKey (SignatureModel.publicKey this) = Returned "k1"
  /\ invalid_digest
       (JSString.remove_first "with" (SignatureModel.algorithm this))
       "Invalid digest"
  /\ SignatureModel.validate
       (SignatureQueries.caught "admin" SignatureModel.manual 1000%Z
          "Invalid digest" this) = Returned tt
  /\ fst run = Returned false
  /\ SignatureModel.status (snd run) = SignatureModel.invalid
  /\ map SignatureModel.action (SignatureModel.auditTrail (snd run))
     = [SignatureModel.invalidated]
  /\ SignatureQueries.isValid 1000%Z (snd run) = false.
Proof.
  intros this run.
  assert (H1 : createPublicKey (SignatureModel.publicKey this) = Returned "k1")
    by reflexivity.
  assert (H2 : invalid_digest
                 (JSString.remove_first "with" (SignatureModel.algorithm this))
                 "Invalid digest")
    by (apply Runs.unknown_digest_is_invalid; reflexivity).
  assert (H3 : SignatureModel.validate
                 (SignatureQueries.caught "admin" SignatureModel.manual 1000%Z
                    "Invalid digest" this) = Returned tt)
    by (vm_compute; reflexivity).
  assert (H4 : SignatureModel.write
                 (SignatureModel.pre_save 1000%Z
                    (SignatureQueries.caught "admin" SignatureModel.manual 1000%Z
                       "Invalid digest" this)) = Returned tt)
    by reflexivity.
  destruct (@LifecycleMore.verify_invalidates _ _ _ this "admin"
              SignatureModel.manual 1000%Z "Invalid digest"
              ("k1" : @KeyObject _ platform) H1 H2 H3 H4)
    as (Hrun & Hstatus & _ & Haudit & Hinvalid).
  split; [exact H1|]. split; [exact H2|]. split; [exact H3|].
  split; [exact Hrun|]. split; [exact Hstatus|].
  split; [unfold run; rewrite Haudit; reflexivity|apply Hinvalid].
Defined.

(** The pending sample record verified twice: two failure entries,
    one audit entry. *)
Lemma verify_twice_witness :
  let this := record "PUB k1" SignatureModel.pending_verification false None in
  let first := SignatureModel.verify "admin" SignatureModel.automatic 1000%Z this in
  let second := SignatureModel.verify "audit" SignatureModel.manual 2000%Z (snd first) in
  createPublicKey (SignatureModel.publicKey this) = Returned "k1"
  /\ invalid_digest
       (JSString.remove_first "with" (SignatureModel.algorithm this))
       "Invalid digest"
  /\ fst first = Returned false
  /\ fst second = Returned false
  /\ SignatureModel.status (snd second) = SignatureModel.invalid
  /\ List.length (SignatureModel.verifications (snd second)) = 2
  /\ List.length (SignatureModel.auditTrail (snd second)) = 1.
Proof.
  intros this first second.
  assert (H1 : createPublicKey (SignatureModel.publicKey this) = Returned "k1")
    by reflexivity.
  assert (H2 : invalid_digest
                 (JSString.remove_first "with" (SignatureModel.algorithm this))
                 "Invalid digest")
    by (apply Runs.unknown_digest_is_invalid; reflexivity).
  destruct (@LifecycleMore.verify_twice integers platform expenses
              this "admin" "audit"
              SignatureModel.automatic SignatureModel.manual 1000%Z 2000%Z
              "Invalid digest" ("k1" : @KeyObject _ platform) H1 H2
              ltac:(vm_compute; reflexivity) ltac:(reflexivity)
              ltac:(vm_compute; reflexivity) ltac:(reflexivity))
    as (Hfirst & Hsecond & Hstatus & Hverifications & Haudit).
  split; [exact H1|]. split; [exact H2|]. split; [exact Hfirst|].
  split; [exact Hsecond|]. split; [exact Hstatus|].
  split; [unfold second, first; rewrite Hverifications; reflexivity|].
  unfold second, first. rewrite Haudit. vm_compute. reflexivity.
Defined.

(** Revoking the sample record for a reason that the schema does not
    allow throws and leaves the audit trail empty; for [key_compromise]
    the audit entry is appended.  In both cases the record in memory is
    [revoked]. *)
Lemma revoke_effect_witness :
  let this := record "PUB k1" SignatureModel.valid false None in
  let refused := SignatureModel.revoke "admin" "lost laptop" "stolen" 1000%Z this in
  let accepted :=
    SignatureModel.revoke "admin" "key_compromise" "stolen" 1000%Z this in
  fst refused = Thrown "Signature validation failed"
  /\ SignatureModel.status (snd refused) = SignatureModel.revoked
  /\ SignatureModel.auditTrail (snd refused) = []
  /\ fst accepted = Returned tt
  /\ SignatureModel.status (snd accepted) = SignatureModel.revoked
  /\ map SignatureModel.action (SignatureModel.auditTrail (snd accepted))
     = [SignatureModel.action_revoked].
Proof.
  intros this refused accepted.
  destruct (@LifecycleMore.revoke_effect _ _ "admin" "lost laptop" "stolen"
              1000%Z this) as (Hstatus & _ & _ & _ & _ & Hrefused & _).
  destruct (@LifecycleMore.revoke_effect _ _ "admin" "key_compromise" "stolen"
              1000%Z this) as (Hstatus' & _ & _ & _ & _ & _ & Haccepted).
  destruct (Hrefused "Signature validation failed" ltac:(vm_compute; reflexivity))
    as [Hthrows Haudit].
  split; [exact Hthrows|]. split; [exact Hstatus|]. split; [exact Haudit|].
  split; [reflexivity|]. split; [exact Hstatus'|].
  unfold accepted. rewrite (Haccepted ltac:(vm_compute; reflexivity)).
  reflexivity.
Defined.

(** The sample record revoked, then verified: it ends [invalid], its
    audit trail reading [revoked], [invalidated]. *)
Lemma verify_after_revoke_invalidates_witness :
  let this := record "PUB k1" SignatureModel.valid false None in
  let revoked_ :=
    snd (SignatureModel.revoke "admin" "key_compromise" "lost" 1000%Z this) in
  let run := SignatureModel.verify "audit" SignatureModel.manual 2000%Z revoked_ in
  createPublicKey (SignatureModel.publicKey this) = Returned "k1"
  /\ invalid_digest
       (JSString.remove_first "with" (SignatureModel.algorithm this))
       "Invalid digest"
  /\ SignatureModel.status revoked_ = SignatureModel.revoked
  /\ fst run = Returned false
  /\ SignatureModel.status (snd run) = SignatureModel.invalid
  /\ map SignatureModel.action (SignatureModel.auditTrail (snd run))
     = [SignatureModel.action_revoked; SignatureModel.invalidated].
Proof.
  intros this revoked_ run.
  assert (H1 : createPublicKey (SignatureModel.publicKey this) = Returned "k1")
    by reflexivity.
  assert (H2 : invalid_digest
                 (JSString.remove_first "with" (SignatureModel.algorithm this))
                 "Invalid digest")
    by (apply Runs.unknown_digest_is_invalid; reflexivity).
  destruct (@LifecycleMore.verify_after_revoke_invalidates
              integers platform expenses "admin" "key_compromise" "lost" 1000%Z
              "audit" SignatureModel.manual 2000%Z this "Invalid digest"
              ("k1" : @KeyObject _ platform) H1 H2
              ltac:(vm_compute; reflexivity) ltac:(reflexivity)
              ltac:(vm_compute; reflexivity) ltac:(reflexivity))
    as (_ & Hrevoked & Hrun & Hstatus & _ & Haudit).
  split; [exact H1|]. split; [exact H2|]. split; [exact Hrevoked|].
  split; [exact Hrun|]. split; [exact Hstatus|].
  unfold run, revoked_. rewrite Haudit. vm_compute. reflexivity.
Defined.

(** A write that fails once.  With a performer left for the
    middleware, the retry leaves two audit entries for one change;
    without one, validation refuses the retry on the entry that the
    first save pushed, and one entry stays. *)
Lemma save_retry_witness :
  let retry (r : SignatureModel.SignatureRecord) :=
    @SignatureModel.save _ fails_once 2000%Z
      (snd (@SignatureModel.save _ fails_once 1000%Z r)) in
  SignatureModel.status_isModified unsaved_change = true
  /\ SignatureModel.isNew unsaved_change = false
  /\ @SignatureModel.validate _ fails_once unsaved_change = Returned tt
  /\ @SignatureModel.write _ fails_once
       (SignatureModel.pre_save 1000%Z unsaved_change) = Thrown "write conflict"
  /\ List.length (SignatureModel.auditTrail (snd (retry unsaved_change))) = 2
  /\ fst (retry anonymous_change) = Thrown "Signature validation failed"
  /\ List.length (SignatureModel.auditTrail (snd (retry anonymous_change))) = 1.
Proof.
  intros retry.
  assert (H1 : SignatureModel.status_isModified unsaved_change = true)
    by reflexivity.
  assert (H2 : SignatureModel.isNew unsaved_change = false) by reflexivity.
  assert (H3 : @SignatureModel.validate _ fails_once unsaved_change = Returned tt)
    by (vm_compute; reflexivity).
  assert (H4 : @SignatureModel.write _ fails_once
                 (SignatureModel.pre_save 1000%Z unsaved_change)
               = Thrown "write conflict") by reflexivity.
  destruct (@LifecycleMore.save_retry _ fails_once 1000%Z 2000%Z unsaved_change)
    as (_ & Hrejected & _).
  destruct (Hrejected _ H1 H2 H3 H4) as (Hfirst & Hsecond & _).
  destruct (@LifecycleMore.save_retry _ fails_once 1000%Z 2000%Z anonymous_change)
    as (_ & Hrejected' & _).
  destruct (Hrejected' "write conflict" eq_refl eq_refl
              ltac:(vm_compute; reflexivity) eq_refl) as (Hfirst' & _ & Hrefused).
  split; [exact H1|]. split; [exact H2|]. split; [exact H3|]. split; [exact H4|].
  split; [|split].
  - unfold retry. rewrite Hfirst. cbn [snd].
    rewrite (Hsecond ltac:(vm_compute; reflexivity)). reflexivity.
  - unfold retry. rewrite Hfirst'. cbn [snd].
    rewrite (Hrefused "Signature validation failed"
               ltac:(vm_compute; reflexivity)). reflexivity.
  - unfold retry. rewrite Hfirst'. cbn [snd].
    rewrite (Hrefused "Signature validation failed"
               ltac:(vm_compute; reflexivity)). reflexivity.
Defined.

(** Reading [lastVerification] of three entries dated 10, 30, 20
    returns the one of 30 and leaves them as 30, 20, 10. *)
Lemma lastVerification_latest_and_reorders_witness :
  fst (SignatureQueries.lastVerification verified_thrice)
  = Some (entry 30%Z "u2" SignatureModel.result_invalid)
  /\ map SignatureModel.verifiedAt
       (SignatureModel.verifications
          (snd (SignatureQueries.lastVerification verified_thrice)))
     = [30%Z; 20%Z; 10%Z]
  /\ Permutation
       (SignatureModel.verifications
          (snd (SignatureQueries.lastVerification verified_thrice)))
       (SignatureModel.verifications verified_thrice).
Proof.
  destruct (@QueryFacts.lastVerification_latest_and_reorders _ verified_thrice)
    as (_ & _ & Hperm & _).
  split; [reflexivity|]. split; [reflexivity|exact Hperm].
Defined.

(** Three valid records and two pending ones. *)
Lemma getStatistics_counts_witness :
  let groups := [(SignatureModel.valid, 3%Z);
                 (SignatureModel.pending_verification, 2%Z)] in
  let result := SignatureQueries.getStatistics
                  (map SignatureQueries.group_of groups) in
  NoDup (map fst groups)
  /\ SignatureQueries.counter result "total" = Some 5%Z
  /\ SignatureQueries.counter result "pending" = Some 0%Z
  /\ SignatureQueries.counter result "pending_verification" = Some 2%Z.
Proof.
  intros groups result.
  assert (Hnd : NoDup (map fst groups)).
  { repeat constructor; cbn; intuition discriminate. }
  destruct (@QueryFacts.getStatistics_counts groups Hnd)
    as (Htotal & Hgroup & Hpending & _).
  split; [exact Hnd|]. split; [exact Htotal|]. split; [exact Hpending|].
  apply (Hgroup SignatureModel.pending_verification 2%Z). cbn. auto.
Defined.

(** The sample expense with another receipt has the same hash. *)
Lemma calculateDocumentHash_ignores_receipt_content_witness :
  SignatureModel.calculateDocumentHash expense_other_receipt
  = SignatureModel.calculateDocumentHash expense.
Proof.
  refine (proj2 (@DocumentHashFacts.calculateDocumentHash_ignores_receipt_content
                   _ _ (spread expense)
                   [JObj [("filename", JStr "r.pdf"); ("size", JNum 10%Z);
                          ("mimetype", JStr "application/pdf")]]
                   [JObj [("filename", JStr "other.pdf"); ("size", JNum 99999%Z);
                          ("mimetype", JStr "image/png")]]
                   eq_refl eq_refl _ _));
    intros r [<-|[]]; split; discriminate.
Defined.

End MoreRuns.
